(** * graph_weather/data/nnja_ai.py: the sensor dataset adapter and its batch stacker

    A shallow embedding of [SensorDataset] ([__init__], [__len__],
    [__getitem__]) and of [collate_fn].  The nnja catalog, pandas, numpy and
    torch are libraries the module calls: the catalog and the conversions of
    cells to float32 are interfaces (type classes) of which the code is a
    client, pandas frames and torch tensors are small concrete models of the
    operations the module uses ([iloc], label lookup, [torch.stack]). *)

From Stdlib Require Import String List ZArith Lia Bool DecimalString.
Import ListNotations.
Open Scope string_scope.

Set Implicit Arguments.
Set Warnings "-register-all".

(** ** Python exceptions and results *)

Inductive exn : Type :=
| NameError (name : string)
| ValueError (msg : string)
| KeyError (key : string)
| IndexError
| AttributeError (attr : string)
| TypeError
| RuntimeError.

Inductive result (A : Type) : Type :=
| Ok (a : A)
| Raise (e : exn).
Arguments Ok {A} a.
Arguments Raise {A} e.

Definition is_ok {A} (r : result A) : bool :=
  match r with Ok _ => true | Raise _ => false end.

Definition rbind {A B} (r : result A) (k : A -> result B) : result B :=
  match r with
  | Ok a => k a
  | Raise e => Raise e
  end.

Declare Scope result_scope.
Delimit Scope result_scope with res.
Notation "x <- r ;; k" := (rbind r (fun x => k))
  (at level 61, r at next level, right associativity) : result_scope.

(** A list comprehension [[f x for x in xs]] whose body may raise: elements
    are evaluated left to right and the first exception ends it. *)
Fixpoint comprehension {A B} (f : A -> result B) (xs : list A) : result (list B) :=
  match xs with
  | [] => Ok []
  | x :: xs' =>
      (y <- f x ;; ys <- comprehension f xs' ;; Ok (y :: ys))%res
  end.

(** ** Computations with a state: [S -> result A * S]

    The state survives an exception (what was done before the raise stays
    done), as in Python. *)

Definition M (S A : Type) : Type := S -> result A * S.

Definition ret {S A} (a : A) : M S A := fun s => (Ok a, s).
Definition raise {S A} (e : exn) : M S A := fun s => (Raise e, s).
Definition lift {S A} (r : result A) : M S A := fun s => (r, s).
Definition bind {S A B} (m : M S A) (k : A -> M S B) : M S B :=
  fun s =>
    match m s with
    | (Ok a, s') => k a s'
    | (Raise e, s') => (Raise e, s')
    end.
Definition gets {S A} (f : S -> A) : M S A := fun s => (Ok (f s), s).

Declare Scope monad_scope.
Delimit Scope monad_scope with monad.
Notation "x <- m ;; k" := (bind m (fun x => k))
  (at level 61, m at next level, right associativity) : monad_scope.

(** ** Strings the constructor builds *)

(** [str(i)] for a natural number. *)
Definition str (i : nat) : string := NilEmpty.string_of_uint (Nat.to_uint i).

(** [s.zfill(width)] for a string without sign. *)
Definition zfill (width : nat) (s : string) : string :=
  String.concat "" (repeat "0" (width - String.length s)) ++ s.

(** [range(a, b)]. *)
Definition range (a b : nat) : list nat := seq a (b - a).

(** ** pandas: frames and rows *)

Section Frames.
Variable cell : Type.

(** A frame: its column labels, in order, and its rows, each a list of
    cells aligned with the labels. *)
Record DataFrame : Type := {
  columns : list string;
  rows : list (list cell)
}.

(** One row, as [iloc] returns it: a series indexed by the column labels. *)
Record Series : Type := {
  labels : list string;
  values : list cell
}.

(** [len(df)]. *)
Definition df_len (df : DataFrame) : nat := length (rows df).

(** [col in df.columns]. *)
Definition has_column (df : DataFrame) (col : string) : bool :=
  existsb (String.eqb col) (columns df).

(** [df.iloc[i]] for an integer: negative positions count from the end,
    a position outside the frame is an [IndexError]. *)
Definition iloc (df : DataFrame) (i : Z) : result Series :=
  let n := Z.of_nat (length (rows df)) in
  let pos := if (i <? 0)%Z then (n + i)%Z else i in
  if ((0 <=? pos) && (pos <? n))%Z then
    match nth_error (rows df) (Z.to_nat pos) with
    | Some r => Ok {| labels := columns df; values := r |}
    | None => Raise IndexError
    end
  else Raise IndexError.

(** Position of a label in an index. *)
Fixpoint position (label : string) (labels : list string) : option nat :=
  match labels with
  | [] => None
  | l :: ls =>
      if String.eqb label l then Some 0
      else option_map S (position label ls)
  end.

(** [row[label]] on a row whose labels are distinct: the cell at the label,
    a [KeyError] when the label is not in the index.  (Where a label occurs
    twice pandas returns a series of the cells, which is no cell: the
    statements about what a lookup returns are for frames with distinct
    column labels.) *)
Definition series_get (row : Series) (label : string) : result cell :=
  match position label (labels row) with
  | Some p =>
      match nth_error (values row) p with
      | Some c => Ok c
      | None => Raise (KeyError label)
      end
  | None => Raise (KeyError label)
  end.
End Frames.

Arguments columns {cell} d.
Arguments rows {cell} d.
Arguments labels {cell} s.
Arguments values {cell} s.

(** ** torch: tensors of float32 *)

Section Tensors.
Variable scalar : Type.

(** A tensor as nested lists: a 0-d tensor, or the stack of its slices
    along the leading axis. *)
Inductive tensor : Type :=
| Scalar (x : scalar)
| Stack (slices : list tensor).

(** [t.shape]. *)
Fixpoint shape (t : tensor) : list nat :=
  match t with
  | Scalar _ => []
  | Stack slices =>
      length slices ::
      match slices with
      | [] => []
      | t0 :: _ => shape t0
      end
  end.

(** [t[i]], the i-th slice along the leading axis. *)
Definition slice (t : tensor) (i : nat) : option tensor :=
  match t with
  | Scalar _ => None
  | Stack slices => nth_error slices i
  end.

Definition same_shape (s : list nat) (t : tensor) : bool :=
  if list_eq_dec Nat.eq_dec (shape t) s then true else false.

(** [torch.stack(ts)]: a new leading axis; it refuses an empty list and
    tensors of different shapes. *)
Definition torch_stack (ts : list tensor) : result tensor :=
  match ts with
  | [] => Raise RuntimeError
  | t0 :: rest =>
      if forallb (same_shape (shape t0)) rest then Ok (Stack ts)
      else Raise RuntimeError
  end.

(** [torch.from_numpy(a)] for a 1-d float32 array. *)
Definition from_numpy (a : list scalar) : tensor := Stack (map Scalar a).
End Tensors.

Arguments Scalar {scalar} x.
Arguments Stack {scalar} slices.

(** ** Python dictionaries with string keys, in insertion order *)

Section Dicts.
Variable V : Type.

Definition pydict : Type := list (string * V).

Definition dict_keys (d : pydict) : list string := map fst d.

(** [d[key]]. *)
Fixpoint dict_get (d : pydict) (key : string) : result V :=
  match d with
  | [] => Raise (KeyError key)
  | (k, v) :: d' => if String.eqb key k then Ok v else dict_get d' key
  end.

(** [d[key] = v]: an existing key keeps its place, a new one goes last. *)
Fixpoint dict_set (d : pydict) (key : string) (v : V) : pydict :=
  match d with
  | [] => [(key, v)]
  | (k, w) :: d' =>
      if String.eqb key k then (k, v) :: d'
      else (k, w) :: dict_set d' key v
  end.

(** A dictionary display [{k1: v1, ...}]. *)
Definition dict_display (items : list (string * V)) : pydict :=
  fold_left (fun d kv => dict_set d (fst kv) (snd kv)) items [].

(** A dictionary comprehension [{key: f(key) for key in keys}] whose
    body may raise. *)
Fixpoint dict_comprehension_from (d : pydict) (f : string -> result V)
    (keys : list string) : result pydict :=
  match keys with
  | [] => Ok d
  | key :: keys' =>
      (v <- f key ;; dict_comprehension_from (dict_set d key v) f keys')%res
  end.

Definition dict_comprehension (f : string -> result V) (keys : list string)
    : result pydict :=
  dict_comprehension_from [] f keys.
End Dicts.

(** ** The libraries behind the adapter *)

(** What the module asks of the values a frame holds: pandas' [timestamp()]
    method and the float32 conversions of torch and numpy.  Each may raise
    (a cell without the method, a value that is no number). *)
Class Values (cell scalar : Type) : Type := {
  pyfloat : Type;
  (** [c.timestamp()] *)
  timestamp : cell -> result pyfloat;
  (** [torch.tensor(x, dtype=torch.float32)] for a Python float [x] *)
  tensor_of_float : pyfloat -> scalar;
  (** [torch.tensor(c, dtype=torch.float32)] for a cell [c] *)
  tensor_of_cell : cell -> result scalar;
  (** one element of [np.array(cells, dtype=np.float32)] *)
  float32_of_cell : cell -> result scalar
}.

(** The nnja catalog.  [nnja_DataCatalog] is the name [DataCatalog] after the
    module's [try: from nnja import DataCatalog except ImportError]: bound
    to the class of nnja, or unbound where the import failed.
    [load_manifest] returns the dataset it has updated. *)
Class NNJA (cell : Type) : Type := {
  catalog_t : Type;
  dataset_t : Type;
  time_t : Type;
  (** the binding of the name [DataCatalog]; called as
      [DataCatalog(skip_manifest=b)] *)
  nnja_DataCatalog : option (bool -> result catalog_t);
  (** [catalog[name]] *)
  catalog_getitem : catalog_t -> string -> result dataset_t;
  (** [dataset.load_manifest()] *)
  load_manifest : dataset_t -> result dataset_t;
  (** [dataset.sel(time=t, variables=vs)] *)
  sel : dataset_t -> time_t -> list string -> result dataset_t;
  (** [dataset.load_dataset(engine=e)] *)
  load_dataset : dataset_t -> string -> result (DataFrame cell)
}.

(** The expression [DataCatalog(skip_manifest=b)]: a [NameError] where the
    name is unbound, what the class of nnja does otherwise. *)
Definition DataCatalog {cell} {N : NNJA cell} (skip_manifest : bool)
    : result catalog_t :=
  match nnja_DataCatalog with
  | Some new => new skip_manifest
  | None => Raise (NameError "DataCatalog")
  end.

(** The calls made to the catalog, in the order they were made. *)
Inductive call : Type :=
| Call_DataCatalog (skip_manifest : bool)
| Call_getitem (name : string)
| Call_load_manifest
| Call_sel (variables : list string)
| Call_load_dataset (engine : string).

(** A call that reaches the catalog: it is logged whether it returns or
    raises. *)
Definition external {A} (c : call) (r : result A) : M (list call) A :=
  fun log => (r, (log ++ [c])%list).

(** ** class SensorDataset *)

Section SensorDataset.
Context {cell scalar : Type} {V : Values cell scalar} {N : NNJA cell}.

(** The attributes of an instance. *)
Record SensorDataset : Type := {
  dataset_name : string;
  time : time_t;
  primary_descriptors : list string;
  additional_variables : list string;
  sensor_type : string;
  catalog : catalog_t;
  dataset : dataset_t;
  dataframe : DataFrame cell;
  metadata_columns : list string
}.

(** [f"{i:02d}"] for a natural number. *)
Definition format_02d (i : nat) : string := zfill 2 (str i).

(** The loop over the primary descriptors that ends the constructor. *)
Fixpoint check_columns (df : DataFrame cell) (cols : list string) : result unit :=
  match cols with
  | [] => Ok tt
  | col :: cols' =>
      if negb (has_column df col) then
        Raise (ValueError ("The dataset must include a '" ++ col ++ "' column."))
      else check_columns df cols'
  end.

Definition select (d : dataset_t) (t : time_t) (variables : list string)
    : M (list call) dataset_t :=
  external (Call_sel variables) (sel d t variables).

(** [SensorDataset(dataset_name, time, primary_descriptors,
    additional_variables, sensor_type)]: the instance when [__init__]
    returns, its exception otherwise. *)
Definition __init__ (dataset_name : string) (time : time_t)
    (primary_descriptors additional_variables : list string)
    (sensor_type : string) : M (list call) SensorDataset :=
  (catalog <- match nnja_DataCatalog with
              | Some new => external (Call_DataCatalog true) (new true)
              | None => raise (NameError "DataCatalog")
              end ;;
   dataset <- external (Call_getitem dataset_name)
                (catalog_getitem catalog dataset_name) ;;
   dataset <- external Call_load_manifest (load_manifest dataset) ;;
   dataset <-
     (if sensor_type =? "AMSU" then
        select dataset time
          (primary_descriptors
           ++ map (fun i => ("TMBR_000" ++ format_02d i)%string) (range 1 16))%list
      else if sensor_type =? "ATMS" then
        select dataset time
          (primary_descriptors
           ++ map (fun i => ("TMBR_000" ++ format_02d i)%string) (range 1 23))%list
      else if sensor_type =? "MHS" then
        select dataset time
          (primary_descriptors
           ++ map (fun i => ("TMBR_000" ++ format_02d i)%string) (range 1 6))%list
      else if sensor_type =? "IASI" then
        select dataset time
          (primary_descriptors
           ++ map (fun i => ("SCRA_" ++ zfill 5 (str i))%string) (range 1 617))%list
      else if sensor_type =? "CrIS" then
        select dataset time
          (primary_descriptors
           ++ map (fun i => ("SRAD01_" ++ zfill 5 (str i))%string) (range 1 432))%list
      else raise (ValueError ("Unsupported sensor type: " ++ sensor_type))) ;;
   dataframe <- external (Call_load_dataset "pandas")
                  (load_dataset dataset "pandas") ;;
   _ <- lift (check_columns dataframe primary_descriptors) ;;
   ret {| dataset_name := dataset_name;
          time := time;
          primary_descriptors := primary_descriptors;
          additional_variables := additional_variables;
          sensor_type := sensor_type;
          catalog := catalog;
          dataset := dataset;
          dataframe := dataframe;
          metadata_columns :=
            filter (fun col => negb (existsb (String.eqb col) primary_descriptors))
                   (columns dataframe) |})%monad.

(** What a method runs in: the instance it is called on and the log of
    the calls made to the catalog so far. *)
Record World : Type := {
  self : SensorDataset;
  calls : list call
}.

Definition __len__ : M World nat :=
  (df <- gets (fun w => dataframe (self w)) ;;
   ret (df_len df))%monad.

Definition __getitem__ (index : Z) : M World (pydict (tensor scalar)) :=
  (df <- gets (fun w => dataframe (self w)) ;;
   row <- lift (iloc df index) ;;
   stamp <- lift (series_get row "OBS_TIMESTAMP") ;;
   time <- lift (timestamp stamp) ;;
   latitude <- lift (series_get row "LAT") ;;
   longitude <- lift (series_get row "LON") ;;
   cols <- gets (fun w => metadata_columns (self w)) ;;
   cells <- lift (comprehension (series_get row) cols) ;;
   metadata <- lift (comprehension float32_of_cell cells) ;;
   latitude <- lift (tensor_of_cell latitude) ;;
   longitude <- lift (tensor_of_cell longitude) ;;
   ret (dict_display
          [("timestamp", Scalar (tensor_of_float time));
           ("latitude", Scalar latitude);
           ("longitude", Scalar longitude);
           ("metadata", from_numpy metadata)]))%monad.
End SensorDataset.

Arguments SensorDataset {cell} N.
Arguments World {cell} N.

(** ** collate_fn *)

Section Collate.
Variable scalar : Type.

Definition collate_fn (batch : list (pydict (tensor scalar)))
    : result (pydict (tensor scalar)) :=
  match batch with
  | [] => Raise IndexError
  | first :: _ =>
      dict_comprehension
        (fun key =>
           (items <- comprehension (fun item => dict_get item key) batch ;;
            torch_stack items)%res)
        (dict_keys first)
  end.
End Collate.

(** ** Vocabulary of the statements *)

(** The channel columns the constructor adds to the primary descriptors for
    a sensor type, [None] for a type it does not know. *)
Definition sensor_channels (sensor_type : string) : option (list string) :=
  if sensor_type =? "AMSU" then
    Some (map (fun i => "TMBR_000" ++ format_02d i) (range 1 16))
  else if sensor_type =? "ATMS" then
    Some (map (fun i => "TMBR_000" ++ format_02d i) (range 1 23))
  else if sensor_type =? "MHS" then
    Some (map (fun i => "TMBR_000" ++ format_02d i) (range 1 6))
  else if sensor_type =? "IASI" then
    Some (map (fun i => "SCRA_" ++ zfill 5 (str i)) (range 1 617))
  else if sensor_type =? "CrIS" then
    Some (map (fun i => "SRAD01_" ++ zfill 5 (str i)) (range 1 432))
  else None.

(** The documented length of the metadata vector of each sensor type. *)
Definition documented_counts : list (string * nat) :=
  [("AMSU", 15); ("ATMS", 22); ("MHS", 5); ("IASI", 616); ("CrIS", 431)].

Definition supported_sensor_types : list string := map fst documented_counts.

(** The columns of a frame that are no primary descriptor, in column order. *)
Definition non_primary (primary : list string) (cols : list string) : list string :=
  filter (fun col => negb (existsb (String.eqb col) primary)) cols.

(** The catalog returns exactly the selected columns: a dataset restricted
    by [sel] to some variables materializes to a frame with those columns. *)
Definition exact_columns {cell} (N : NNJA cell) : Prop :=
  forall d t variables d' engine df,
    sel d t variables = Ok d' ->
    load_dataset d' engine = Ok df ->
    columns df = variables.

(** The five calls a construction that returns has made to the catalog. *)
Definition construction_calls (dataset_name : string) (variables : list string)
    : list call :=
  [Call_DataCatalog true; Call_getitem dataset_name; Call_load_manifest;
   Call_sel variables; Call_load_dataset "pandas"].

(** No primary descriptor is one of the channel columns of the sensor type. *)
Definition apart_from_channels (sensor_type : string) (primary : list string) : bool :=
  match sensor_channels sensor_type with
  | Some channels =>
      forallb (fun col => negb (existsb (String.eqb col) channels)) primary
  | None => true
  end.

(** No label occurs twice. *)
Fixpoint distinct (labels : list string) : bool :=
  match labels with
  | [] => true
  | l :: ls => negb (existsb (String.eqb l) ls) && distinct ls
  end.

(** Every row of the frame has one cell per column. *)
Definition aligned {cell} (df : DataFrame cell) : bool :=
  forallb (fun r => Nat.eqb (length r) (length (columns df))) (rows df).

(** The record [__getitem__] builds from what it has read and converted. *)
Definition sample_record {scalar} (time latitude longitude : scalar)
    (metadata : list scalar) : pydict (tensor scalar) :=
  [("timestamp", Scalar time);
   ("latitude", Scalar latitude);
   ("longitude", Scalar longitude);
   ("metadata", from_numpy metadata)].

(** The three columns [__getitem__] reads by name. *)
Definition geo_columns : list string := ["OBS_TIMESTAMP"; "LAT"; "LON"].

Section Vocabulary.
Context {cell : Type} {N : NNJA cell}.

(** [__init__] with its chain of tests on the sensor type read through
    [sensor_channels] ([init_normal_eq] below: the two agree). *)
Definition init_normal (dataset_name : string) (time : time_t)
    (primary_descriptors additional_variables : list string)
    (sensor_type : string) : M (list call) (SensorDataset N) :=
  (catalog <- match nnja_DataCatalog with
              | Some new => external (Call_DataCatalog true) (new true)
              | None => raise (NameError "DataCatalog")
              end ;;
   dataset <- external (Call_getitem dataset_name)
                (catalog_getitem catalog dataset_name) ;;
   dataset <- external Call_load_manifest (load_manifest dataset) ;;
   dataset <-
     match sensor_channels sensor_type with
     | Some channels =>
         select dataset time (primary_descriptors ++ channels)%list
     | None => raise (ValueError ("Unsupported sensor type: " ++ sensor_type))
     end ;;
   dataframe <- external (Call_load_dataset "pandas")
                  (load_dataset dataset "pandas") ;;
   _ <- lift (check_columns dataframe primary_descriptors) ;;
   ret {| dataset_name := dataset_name;
          time := time;
          primary_descriptors := primary_descriptors;
          additional_variables := additional_variables;
          sensor_type := sensor_type;
          catalog := catalog;
          dataset := dataset;
          dataframe := dataframe;
          metadata_columns :=
            non_primary primary_descriptors (columns dataframe) |})%monad.

(** An instance with another list of primary descriptors, all else equal. *)
Definition with_primary_descriptors (a : SensorDataset N) (primary : list string)
    : SensorDataset N :=
  {| dataset_name := dataset_name a;
     time := time a;
     primary_descriptors := primary;
     additional_variables := additional_variables a;
     sensor_type := sensor_type a;
     catalog := catalog a;
     dataset := dataset a;
     dataframe := dataframe a;
     metadata_columns := metadata_columns a |}.

(** The message of the constructor for an absent primary descriptor. *)
Definition missing_column (col : string) : exn :=
  ValueError ("The dataset must include a '" ++ col ++ "' column.").
End Vocabulary.

Section BatchVocabulary.
Context {scalar : Type}.

(** Every field of the first sample is a field of the other. *)
Definition has_fields (first item : pydict (tensor scalar)) : bool :=
  forallb (fun key => existsb (String.eqb key) (dict_keys item)) (dict_keys first).

(** Two samples have the same field names. *)
Definition same_fields (first item : pydict (tensor scalar)) : bool :=
  has_fields first item && has_fields item first.

(** Each field of the first sample has the same shape in the other. *)
Definition same_shapes (first item : pydict (tensor scalar)) : bool :=
  forallb
    (fun key =>
       match dict_get first key, dict_get item key with
       | Ok t0, Ok t => same_shape (shape t0) t
       | _, _ => true
       end)
    (dict_keys first).
End BatchVocabulary.

(** ** A synthetic catalog, to run the model on *)

Module Synthetic.
(** Cells: a pandas timestamp (seconds since the epoch), a number, a text.
    Numbers are integers here; nothing below depends on rounding. *)
Inductive pycell : Type :=
| Timestamp (seconds : Z)
| Number (x : Z)
| Text (s : string).

#[export] Instance values : Values pycell Z := {|
  pyfloat := Z;
  timestamp c :=
    match c with
    | Timestamp s => Ok s
    | _ => Raise (AttributeError "timestamp")
    end;
  tensor_of_float x := x;
  tensor_of_cell c :=
    match c with
    | Number x => Ok x
    | _ => Raise TypeError
    end;
  float32_of_cell c :=
    match c with
    | Number x => Ok x
    | Timestamp _ => Raise TypeError
    | Text _ => Raise (ValueError "could not convert string to float")
    end
|}.

(** The cell of the synthetic collections at a row and a column. *)
Definition cell_at (r : nat) (col : string) : pycell :=
  if col =? "OBS_TIMESTAMP" then Timestamp (1700000000 + Z.of_nat r)
  else Number (Z.of_nat (String.length col) + Z.of_nat r).

(** A catalog of named collections, each with a number of rows.  A
    selection keeps the variables asked for, except those in [absent],
    which no collection holds, and adds those of [always] that were not
    asked for; the frame loaded has these columns.  [installed = false] is
    the module after a failed import of nnja. *)
Definition make (installed : bool) (absent always : list string)
    (collections : list (string * nat)) : NNJA pycell := {|
  catalog_t := list (string * nat);
  dataset_t := nat * list string;
  time_t := Z;
  nnja_DataCatalog :=
    if installed then Some (fun _ => Ok collections) else None;
  catalog_getitem cat name :=
    match find (fun entry => String.eqb name (fst entry)) cat with
    | Some entry => Ok (snd entry, [])
    | None => Raise (KeyError name)
    end;
  load_manifest d := Ok d;
  sel d _ variables :=
    Ok (fst d, (non_primary absent variables ++ non_primary variables always)%list);
  load_dataset d _ :=
    Ok {| columns := snd d;
          rows := map (fun r => map (cell_at r) (snd d)) (seq 0 (fst d)) |}
|}.

Definition catalog (installed : bool) (absent : list string)
    (collections : list (string * nat)) : NNJA pycell :=
  make installed absent [] collections.

(** A catalog with one collection of two rows that holds every variable. *)
Definition nnja : NNJA pycell := catalog true [] [("amsua", 2)].

(** The same where the import of nnja failed. *)
Definition not_installed : NNJA pycell := catalog false [] [("amsua", 2)].

(** The same where no collection holds a column LAT. *)
Definition without_lat : NNJA pycell := catalog true ["LAT"] [("amsua", 2)].

(** A catalog whose frames always carry the columns LAT and LON. *)
Definition with_position : NNJA pycell :=
  make true [] ["LAT"; "LON"] [("amsua", 2)].

(** The instance built from the collection amsua, the log of its
    construction, and the sample at a position. *)
Definition adapter (N : NNJA pycell) (t : @time_t _ N)
    (primary : list string) (sensor : string)
    : result (SensorDataset N) * list call :=
  __init__ "amsua" t primary [] sensor [].

Definition sample_at (N : NNJA pycell) (t : @time_t _ N)
    (primary : list string) (sensor : string) (i : Z)
    : result (pydict (tensor Z)) :=
  match adapter N t primary sensor with
  | (Ok a, log) => fst (__getitem__ i {| self := a; calls := log |})
  | (Raise e, _) => Raise e
  end.
End Synthetic.

(** ** The model on small inputs *)

Example format_02d_pads : map format_02d [1; 9; 10; 22] = ["01"; "09"; "10"; "22"].
Proof. reflexivity. Qed.

Example mhs_channels :
  sensor_channels "MHS"
  = Some ["TMBR_00001"; "TMBR_00002"; "TMBR_00003"; "TMBR_00004"; "TMBR_00005"].
Proof. reflexivity. Qed.

Example iasi_channels_ends :
  option_map (fun cs => (hd "" cs, last cs "")) (sensor_channels "IASI")
  = Some ("SCRA_00001", "SCRA_00616").
Proof. vm_compute. reflexivity. Qed.

Example cris_channels_ends :
  option_map (fun cs => (hd "" cs, last cs "")) (sensor_channels "CrIS")
  = Some ("SRAD01_00001", "SRAD01_00431").
Proof. vm_compute. reflexivity. Qed.

Example iloc_from_the_end :
  iloc {| columns := ["LAT"]; rows := [[1]; [2]; [3]] |} (-1)%Z
  = Ok {| labels := ["LAT"]; values := [3] |} /\
  iloc {| columns := ["LAT"]; rows := [[1]; [2]; [3]] |} 3%Z = Raise IndexError /\
  iloc {| columns := ["LAT"]; rows := [[1]; [2]; [3]] |} (-4)%Z = Raise IndexError.
Proof. repeat split. Qed.

Example sample_of_row_one :
  Synthetic.sample_at Synthetic.nnja 0%Z geo_columns "MHS" 1%Z
  = Ok [("timestamp", Scalar 1700000001%Z);
        ("latitude", Scalar 4%Z);
        ("longitude", Scalar 4%Z);
        ("metadata", Stack [Scalar 11%Z; Scalar 11%Z; Scalar 11%Z;
                            Scalar 11%Z; Scalar 11%Z])].
Proof. reflexivity. Qed.

Example failed_import_calls_nothing :
  Synthetic.adapter Synthetic.not_installed 0%Z geo_columns "AMSU"
  = (Raise (NameError "DataCatalog"), []).
Proof. reflexivity. Qed.

Example collate_two :
  collate_fn [[("latitude", Scalar 4%Z); ("metadata", from_numpy [7; 8]%Z)];
              [("latitude", Scalar 5%Z); ("metadata", from_numpy [9; 6]%Z)]]
  = Ok [("latitude", Stack [Scalar 4%Z; Scalar 5%Z]);
        ("metadata", Stack [Stack [Scalar 7%Z; Scalar 8%Z];
                            Stack [Scalar 9%Z; Scalar 6%Z]])].
Proof. reflexivity. Qed.

(** ** Results and comprehensions *)

Section Comprehension.
Context {A B : Type} (f : A -> result B).

Lemma comprehension_Forall2 (xs : list A) (ys : list B) :
  comprehension f xs = Ok ys <-> Forall2 (fun x y => f x = Ok y) xs ys.
Proof.
  revert ys; induction xs as [|x xs IH]; intros ys; simpl.
  - split.
    + intros [= <-]; constructor.
    + intros H; inversion H; reflexivity.
  - destruct (f x) as [y|e] eqn:Hx; simpl.
    + destruct (comprehension f xs) as [ys'|e] eqn:Hxs; simpl.
      * split.
        -- intros [= <-]. constructor; [assumption | now apply IH].
        -- intros H; inversion H as [|? y0 ? ys0 Hy Hys]; subst.
           apply IH in Hys. congruence.
      * split; [discriminate|].
        intros H; inversion H as [|? y0 ? ys0 Hy Hys]; subst.
        apply IH in Hys; discriminate.
    + split; [discriminate|].
      intros H; inversion H; congruence.
Qed.

Lemma comprehension_length (xs : list A) (ys : list B) :
  comprehension f xs = Ok ys -> length ys = length xs.
Proof.
  intros H; apply comprehension_Forall2 in H.
  symmetry; eapply Forall2_length; eassumption.
Qed.

Lemma comprehension_nth (xs : list A) (ys : list B) (i : nat) (x : A) :
  comprehension f xs = Ok ys ->
  nth_error xs i = Some x ->
  exists y, nth_error ys i = Some y /\ f x = Ok y.
Proof.
  intros H; apply comprehension_Forall2 in H.
  revert i; induction H as [|x0 y0 xs0 ys0 Hxy _ IH]; intros i Hi.
  - destruct i; discriminate.
  - destruct i as [|i]; simpl in *.
    + injection Hi as <-. now exists y0.
    + now apply IH.
Qed.
End Comprehension.

Lemma existsb_eqb_In (s : string) (l : list string) :
  existsb (String.eqb s) l = true <-> In s l.
Proof.
  rewrite existsb_exists; split.
  - intros (x & Hin & Heq). apply String.eqb_eq in Heq. now subst.
  - intros Hin. exists s. split; [assumption | apply String.eqb_refl].
Qed.

Lemma non_primary_spec (primary cols : list string) (col : string) :
  In col (non_primary primary cols) <-> In col cols /\ ~ In col primary.
Proof.
  unfold non_primary. rewrite filter_In, negb_true_iff.
  split; intros [Hc Hp]; (split; [assumption|]).
  - intros Hin. apply existsb_eqb_In in Hin. congruence.
  - apply not_true_is_false. intros Hin. apply Hp, existsb_eqb_In, Hin.
Qed.

Lemma non_primary_primary (primary cols : list string) :
  incl cols primary -> non_primary primary cols = [].
Proof.
  unfold non_primary. induction cols as [|c cols IH]; intros Hincl; simpl.
  - reflexivity.
  - assert (Hc : existsb (String.eqb c) primary = true).
    { apply existsb_eqb_In, Hincl. now left. }
    rewrite Hc. simpl. apply IH. intros x Hx. apply Hincl. now right.
Qed.

Lemma non_primary_app_disjoint (primary channels : list string) :
  (forall col, In col primary -> ~ In col channels) ->
  non_primary primary (primary ++ channels) = channels.
Proof.
  intros Hdis. unfold non_primary. rewrite filter_app.
  fold (non_primary primary primary).
  rewrite non_primary_primary by apply incl_refl.
  simpl. apply forallb_filter_id. apply forallb_forall. intros col Hin.
  apply negb_true_iff, not_true_iff_false. rewrite existsb_eqb_In.
  intros Hp. exact (Hdis col Hp Hin).
Qed.

(** ** The constructor *)

Ltac run_monad :=
  unfold bind, external, select, lift, raise, ret, gets; simpl.

Lemma sensor_channels_None (sensor : string) :
  sensor_channels sensor = None <-> ~ In sensor supported_sensor_types.
Proof.
  unfold sensor_channels, supported_sensor_types; simpl.
  destruct (sensor =? "AMSU") eqn:E1;
    [apply String.eqb_eq in E1; subst; split; [discriminate | intros H; exfalso; apply H; tauto] |].
  destruct (sensor =? "ATMS") eqn:E2;
    [apply String.eqb_eq in E2; subst; split; [discriminate | intros H; exfalso; apply H; tauto] |].
  destruct (sensor =? "MHS") eqn:E3;
    [apply String.eqb_eq in E3; subst; split; [discriminate | intros H; exfalso; apply H; tauto] |].
  destruct (sensor =? "IASI") eqn:E4;
    [apply String.eqb_eq in E4; subst; split; [discriminate | intros H; exfalso; apply H; tauto] |].
  destruct (sensor =? "CrIS") eqn:E5;
    [apply String.eqb_eq in E5; subst; split; [discriminate | intros H; exfalso; apply H; tauto] |].
  apply String.eqb_neq in E1, E2, E3, E4, E5.
  split; [|reflexivity]. intros _ [H|[H|[H|[H|[H|[]]]]]]; congruence.
Qed.

Lemma documented_channels (sensor : string) (n : nat) :
  In (sensor, n) documented_counts ->
  exists channels,
    sensor_channels sensor = Some channels /\ length channels = n /\
    forallb (fun col => negb (existsb (String.eqb col) channels)) geo_columns = true.
Proof.
  unfold documented_counts.
  intros [H|[H|[H|[H|[H|[]]]]]]; injection H as <- <-;
    eexists; (split; [reflexivity|]); split; vm_compute; reflexivity.
Qed.

Section Construction.
Context {cell : Type} {N : NNJA cell}.
Variables (name : string) (t : time_t) (primary additional : list string)
          (sensor : string).

Lemma init_normal_eq (log : list call) :
  __init__ name t primary additional sensor log
  = init_normal name t primary additional sensor log.
Proof.
  unfold __init__, init_normal, sensor_channels, non_primary. run_monad.
  destruct nnja_DataCatalog as [new|]; [|reflexivity].
  destruct (new true) as [cat|]; [|reflexivity].
  destruct (catalog_getitem cat name) as [d0|]; [|reflexivity].
  destruct (load_manifest d0) as [d1|]; [|reflexivity].
  destruct (sensor =? "AMSU"); [reflexivity|].
  destruct (sensor =? "ATMS"); [reflexivity|].
  destruct (sensor =? "MHS"); [reflexivity|].
  destruct (sensor =? "IASI"); [reflexivity|].
  destruct (sensor =? "CrIS"); reflexivity.
Qed.

Lemma check_columns_find (df : DataFrame cell) (cols : list string) :
  check_columns df cols
  = match find (fun col => negb (has_column df col)) cols with
    | Some col => Raise (missing_column col)
    | None => Ok tt
    end.
Proof.
  induction cols as [|col cols IH]; simpl; [reflexivity|].
  destruct (negb (has_column df col)); [reflexivity | exact IH].
Qed.

Lemma check_columns_ok (df : DataFrame cell) (cols : list string) :
  check_columns df cols = Ok tt <-> forallb (has_column df) cols = true.
Proof.
  induction cols as [|col cols IH]; simpl; [tauto|].
  destruct (has_column df col); simpl; [exact IH|].
  split; discriminate.
Qed.

(** What a construction that returns has done. *)
Lemma init_ok_inv (log log' : list call) (a : SensorDataset N) :
  __init__ name t primary additional sensor log = (Ok a, log') ->
  exists cat d0 d1 channels d2,
    DataCatalog true = Ok cat /\
    catalog_getitem cat name = Ok d0 /\
    load_manifest d0 = Ok d1 /\
    sensor_channels sensor = Some channels /\
    sel d1 t (primary ++ channels)%list = Ok d2 /\
    load_dataset d2 "pandas" = Ok (dataframe a) /\
    check_columns (dataframe a) primary = Ok tt /\
    primary_descriptors a = primary /\
    metadata_columns a = non_primary primary (columns (dataframe a)) /\
    log' = (log ++ construction_calls name (primary ++ channels))%list.
Proof.
  rewrite init_normal_eq. unfold init_normal, DataCatalog. run_monad.
  destruct nnja_DataCatalog as [new|]; [|discriminate].
  destruct (new true) as [cat|] eqn:H1; [|discriminate].
  destruct (catalog_getitem cat name) as [d0|] eqn:H2; [|discriminate].
  destruct (load_manifest d0) as [d1|] eqn:H3; [|discriminate].
  destruct (sensor_channels sensor) as [channels|] eqn:H4; [|discriminate].
  simpl.
  destruct (sel d1 t (primary ++ channels)%list) as [d2|] eqn:H5; [|discriminate].
  destruct (load_dataset d2 "pandas") as [df|] eqn:H6; [|discriminate].
  destruct (check_columns df primary) as [[]|] eqn:H7; [|discriminate].
  intros [= <- <-]. simpl.
  exists cat, d0, d1, channels, d2.
  repeat (split; [first [assumption | reflexivity]|]).
  unfold construction_calls. now rewrite <- !app_assoc.
Qed.

(** What the constructor does once the collection is open. *)
Lemma init_run (log : list call) cat d0 d1 :
  DataCatalog true = Ok cat ->
  catalog_getitem cat name = Ok d0 ->
  load_manifest d0 = Ok d1 ->
  __init__ name t primary additional sensor log
  = match sensor_channels sensor with
    | None =>
        (Raise (ValueError ("Unsupported sensor type: " ++ sensor)),
         (log ++ [Call_DataCatalog true; Call_getitem name; Call_load_manifest])%list)
    | Some channels =>
        let variables := (primary ++ channels)%list in
        match sel d1 t variables with
        | Raise e =>
            (Raise e,
             (log ++ [Call_DataCatalog true; Call_getitem name;
                      Call_load_manifest; Call_sel variables])%list)
        | Ok d2 =>
            (match load_dataset d2 "pandas" with
             | Raise e => Raise e
             | Ok df =>
                 match check_columns df primary with
                 | Raise e => Raise e
                 | Ok _ =>
                     Ok {| dataset_name := name;
                           time := t;
                           primary_descriptors := primary;
                           additional_variables := additional;
                           sensor_type := sensor;
                           catalog := cat;
                           dataset := d2;
                           dataframe := df;
                           metadata_columns := non_primary primary (columns df) |}
                 end
             end,
             (log ++ construction_calls name variables)%list)
        end
    end.
Proof.
  intros H1 H2 H3.
  rewrite init_normal_eq. unfold init_normal, construction_calls. run_monad.
  unfold DataCatalog in H1.
  destruct nnja_DataCatalog as [new|]; [|discriminate].
  rewrite H1, H2, H3.
  destruct (sensor_channels sensor) as [channels|]; simpl;
    [|now rewrite <- !app_assoc].
  destruct (sel d1 t (primary ++ channels)%list) as [d2|];
    [|now rewrite <- !app_assoc].
  destruct (load_dataset d2 "pandas") as [df|]; [|now rewrite <- !app_assoc].
  destruct (check_columns df primary) as [[]|]; now rewrite <- !app_assoc.
Qed.

(** The constructor never returns for a sensor type it does not know. *)
Lemma init_unsupported (log : list call) :
  sensor_channels sensor = None ->
  is_ok (fst (__init__ name t primary additional sensor log)) = false.
Proof.
  intros Hs. rewrite init_normal_eq. unfold init_normal. run_monad.
  destruct nnja_DataCatalog as [new|]; [|reflexivity].
  destruct (new true) as [cat|]; [|reflexivity].
  destruct (catalog_getitem cat name) as [d0|]; [|reflexivity].
  destruct (load_manifest d0) as [d1|]; [|reflexivity].
  now rewrite Hs.
Qed.
End Construction.

(** ** Frames, rows and tensors *)

Section FrameFacts.
Context {cell : Type}.

Lemma position_Some (label : string) (ls : list string) (p : nat) :
  position label ls = Some p -> nth_error ls p = Some label.
Proof.
  revert p; induction ls as [|l ls IH]; simpl; intros p; [discriminate|].
  destruct (label =? l) eqn:E.
  - intros [= <-]. apply String.eqb_eq in E. now subst.
  - destruct (position label ls) as [q|]; simpl; [|discriminate].
    intros [= <-]. now apply IH.
Qed.

Lemma position_None (label : string) (ls : list string) :
  position label ls = None <-> ~ In label ls.
Proof.
  induction ls as [|l ls IH]; simpl; [tauto|].
  destruct (label =? l) eqn:E.
  - apply String.eqb_eq in E. subst. split; [discriminate | tauto].
  - apply String.eqb_neq in E.
    destruct (position label ls) as [q|]; simpl.
    + split; [discriminate|]. intros H. exfalso. apply H. right.
      destruct (in_dec string_dec label ls) as [Hin|Hout]; [assumption|].
      apply IH in Hout. discriminate.
    + split; [|reflexivity]. intros _ [H|H]; [congruence|].
      now apply (proj1 IH).
Qed.

Lemma series_get_In (row : Series cell) (label : string) (c : cell) :
  series_get row label = Ok c -> In label (labels row).
Proof.
  unfold series_get.
  destruct (position label (labels row)) as [p|] eqn:Hp; [|discriminate].
  intros _. apply position_Some in Hp. eapply nth_error_In; eassumption.
Qed.

Lemma iloc_labels (df : DataFrame cell) (i : Z) (row : Series cell) :
  iloc df i = Ok row -> labels row = columns df /\ In (values row) (rows df).
Proof.
  unfold iloc.
  destruct ((0 <=? _)%Z && _); [|discriminate].
  destruct (nth_error (rows df) _) as [r|] eqn:Hr; [|discriminate].
  intros [= <-]. simpl. split; [reflexivity|].
  eapply nth_error_In; eassumption.
Qed.

(** Every position from [0] to the row count is valid for [iloc]. *)
Lemma iloc_valid (df : DataFrame cell) (i : Z) :
  (0 <= i < Z.of_nat (df_len df))%Z -> exists row, iloc df i = Ok row.
Proof.
  unfold iloc, df_len. intros [Hlo Hhi].
  destruct (i <? 0)%Z eqn:Hneg; [apply Z.ltb_lt in Hneg; lia|].
  apply Z.leb_le in Hlo. apply Z.ltb_lt in Hhi as Hhi'.
  rewrite Hlo, Hhi'. simpl.
  destruct (nth_error (rows df) (Z.to_nat i)) as [r|] eqn:Hr.
  - eexists; reflexivity.
  - apply nth_error_None in Hr. lia.
Qed.
End FrameFacts.

Section TensorFacts.
Context {scalar : Type}.

Lemma shape_from_numpy (a : list scalar) :
  shape (from_numpy a) = [length a].
Proof.
  unfold from_numpy. simpl. rewrite length_map. now destruct a.
Qed.

Lemma same_shape_true (s : list nat) (t : tensor scalar) :
  same_shape s t = true <-> shape t = s.
Proof.
  unfold same_shape. destruct (list_eq_dec Nat.eq_dec (shape t) s);
    split; congruence.
Qed.

Lemma torch_stack_ok (ts : list (tensor scalar)) (r : tensor scalar) :
  torch_stack ts = Ok r ->
  r = Stack ts /\
  exists t0 rest, ts = t0 :: rest /\ Forall (fun t => shape t = shape t0) rest.
Proof.
  destruct ts as [|t0 rest]; simpl; [discriminate|].
  destruct (forallb _ rest) eqn:H; [|discriminate].
  intros [= <-]. split; [reflexivity|]. exists t0, rest. split; [reflexivity|].
  apply Forall_forall. intros x Hx.
  rewrite forallb_forall in H. now apply same_shape_true, H.
Qed.

Lemma torch_stack_same (t0 : tensor scalar) (rest : list (tensor scalar)) :
  Forall (fun t => shape t = shape t0) rest ->
  torch_stack (t0 :: rest) = Ok (Stack (t0 :: rest)).
Proof.
  intros H. simpl.
  replace (forallb _ rest) with true; [reflexivity|].
  symmetry. apply forallb_forall. intros x Hx. apply same_shape_true.
  rewrite Forall_forall in H. now apply H.
Qed.
End TensorFacts.

(** ** The methods *)

Section Methods.
Context {cell scalar : Type} {V : Values cell scalar} {N : NNJA cell}.

Lemma len_run (w : World N) :
  __len__ w = (Ok (length (rows (dataframe (self w)))), w).
Proof. reflexivity. Qed.

(** [__getitem__] assigns nothing and calls no catalog. *)
Lemma getitem_frame (i : Z) (w : World N) : snd (__getitem__ i w) = w.
Proof.
  unfold __getitem__. run_monad.
  repeat match goal with
         | |- context [match ?r with Ok _ => _ | Raise _ => _ end] =>
             destruct r; simpl
         end; reflexivity.
Qed.

(** What an indexed access that returns has read. *)
Lemma getitem_ok_inv (i : Z) (w : World N) (s : pydict (tensor scalar)) :
  fst (__getitem__ i w) = Ok s ->
  exists row stamp tm clat clon cells md lat lon,
    iloc (dataframe (self w)) i = Ok row /\
    series_get row "OBS_TIMESTAMP" = Ok stamp /\
    timestamp stamp = Ok tm /\
    series_get row "LAT" = Ok clat /\
    series_get row "LON" = Ok clon /\
    comprehension (series_get row) (metadata_columns (self w)) = Ok cells /\
    comprehension float32_of_cell cells = Ok md /\
    tensor_of_cell clat = Ok lat /\
    tensor_of_cell clon = Ok lon /\
    s = [("timestamp", Scalar (tensor_of_float tm));
         ("latitude", Scalar lat);
         ("longitude", Scalar lon);
         ("metadata", from_numpy md)].
Proof.
  unfold __getitem__. run_monad.
  destruct (iloc _ i) as [row|] eqn:H1; simpl; [|discriminate].
  destruct (series_get row "OBS_TIMESTAMP") as [stamp|] eqn:H2; simpl; [|discriminate].
  destruct (timestamp stamp) as [tm|] eqn:H3; simpl; [|discriminate].
  destruct (series_get row "LAT") as [clat|] eqn:H4; simpl; [|discriminate].
  destruct (series_get row "LON") as [clon|] eqn:H5; simpl; [|discriminate].
  destruct (comprehension (series_get row) _) as [cells|] eqn:H6; simpl; [|discriminate].
  destruct (comprehension float32_of_cell cells) as [md|] eqn:H7; simpl; [|discriminate].
  destruct (tensor_of_cell clat) as [lat|] eqn:H8; simpl; [|discriminate].
  destruct (tensor_of_cell clon) as [lon|] eqn:H9; simpl; [|discriminate].
  intros [= <-].
  exists row, stamp, tm, clat, clon, cells, md, lat, lon.
  repeat (split; [first [assumption | reflexivity]|]). reflexivity.
Qed.

Lemma getitem_run (i : Z) (w : World N) row stamp tm clat clon cells md lat lon :
  iloc (dataframe (self w)) i = Ok row ->
  series_get row "OBS_TIMESTAMP" = Ok stamp ->
  timestamp stamp = Ok tm ->
  series_get row "LAT" = Ok clat ->
  series_get row "LON" = Ok clon ->
  comprehension (series_get row) (metadata_columns (self w)) = Ok cells ->
  comprehension float32_of_cell cells = Ok md ->
  tensor_of_cell clat = Ok lat ->
  tensor_of_cell clon = Ok lon ->
  fst (__getitem__ i w)
  = Ok [("timestamp", Scalar (tensor_of_float tm));
        ("latitude", Scalar lat);
        ("longitude", Scalar lon);
        ("metadata", from_numpy md)].
Proof.
  intros H1 H2 H3 H4 H5 H6 H7 H8 H9.
  unfold __getitem__. run_monad.
  rewrite H1; simpl. rewrite H2; simpl. rewrite H3; simpl.
  rewrite H4; simpl. rewrite H5; simpl. rewrite H6; simpl.
  rewrite H7; simpl. rewrite H8; simpl. rewrite H9; simpl.
  reflexivity.
Qed.

(** An access returns only on a frame that has the three columns. *)
Lemma getitem_needs_geo (i : Z) (w : World N) (s : pydict (tensor scalar)) :
  fst (__getitem__ i w) = Ok s ->
  forallb (has_column (dataframe (self w))) geo_columns = true.
Proof.
  intros H. apply getitem_ok_inv in H.
  destruct H as (row & stamp & tm & clat & clon & cells & md & lat & lon &
                 H1 & H2 & _ & H4 & H5 & _).
  apply iloc_labels in H1 as [Hl _].
  apply series_get_In in H2, H4, H5. rewrite Hl in H2, H4, H5.
  apply existsb_eqb_In in H2, H4, H5.
  unfold geo_columns. cbn [forallb]. unfold has_column.
  now rewrite H2, H4, H5.
Qed.
(** The outcome of an access depends on the frame and on the metadata
    columns of the instance, and on nothing else. *)
Lemma getitem_reads (i : Z) (w w' : World N) :
  dataframe (self w) = dataframe (self w') ->
  metadata_columns (self w) = metadata_columns (self w') ->
  fst (__getitem__ i w) = fst (__getitem__ i w').
Proof.
  intros Hd Hm. unfold __getitem__. run_monad. rewrite Hd, Hm.
  repeat match goal with
         | |- context [match ?r with Ok _ => _ | Raise _ => _ end] =>
             destruct r; simpl
         end; reflexivity.
Qed.
End Methods.

(** ** Dictionaries *)

Section DictFacts.
Context {V : Type}.
Implicit Types (d r : pydict V) (f : string -> result V).

Lemma dict_get_set d (k k' : string) (v : V) :
  dict_get (dict_set d k v) k' = if k' =? k then Ok v else dict_get d k'.
Proof.
  induction d as [|[k0 w] d IH]; simpl.
  - reflexivity.
  - destruct (k =? k0) eqn:E; simpl.
    + apply String.eqb_eq in E. subst k0.
      destruct (k' =? k); reflexivity.
    + rewrite IH. destruct (k' =? k0) eqn:E'; [|reflexivity].
      apply String.eqb_eq in E'. subst k0.
      now rewrite String.eqb_sym, E.
Qed.

Lemma dict_get_keys d (k : string) :
  In k (dict_keys d) <-> exists v, dict_get d k = Ok v.
Proof.
  induction d as [|[k0 w] d IH]; simpl.
  - split; [tauto | intros [v H]; discriminate].
  - destruct (k =? k0) eqn:E.
    + apply String.eqb_eq in E. subst. split; [now exists w | now left].
    + apply String.eqb_neq in E. rewrite <- IH.
      split; [intros [H|H]; [congruence | assumption] | now right].
Qed.

Lemma dict_keys_set d (k k' : string) (v : V) :
  In k' (dict_keys (dict_set d k v)) <-> k' = k \/ In k' (dict_keys d).
Proof.
  rewrite !dict_get_keys. setoid_rewrite dict_get_set.
  destruct (k' =? k) eqn:E.
  - apply String.eqb_eq in E. split; [now left | now exists v].
  - apply String.eqb_neq in E. split; [now right | intros [H|H]; [congruence | assumption]].
Qed.

Lemma dict_comprehension_from_ok f (keys : list string) d r :
  dict_comprehension_from d f keys = Ok r ->
  (forall k, In k (dict_keys r) <-> In k (dict_keys d) \/ In k keys) /\
  (forall k, In k keys -> exists v, f k = Ok v /\ dict_get r k = Ok v) /\
  (forall k, ~ In k keys -> dict_get r k = dict_get d k).
Proof.
  revert d; induction keys as [|key keys IH]; simpl; intros d.
  - intros [= <-]. repeat split; tauto.
  - destruct (f key) as [v|e] eqn:Hf; simpl; [|discriminate].
    intros H. apply IH in H as (Hkeys & Hin & Hout).
    split; [|split].
    + intros k. rewrite Hkeys, dict_keys_set. intuition (subst; auto).
    + intros k [<-|Hk]; [|now apply Hin].
      destruct (in_dec string_dec key keys) as [Hk|Hk]; [now apply Hin|].
      exists v. split; [assumption|].
      rewrite (Hout _ Hk), dict_get_set. now rewrite String.eqb_refl.
    + intros k Hk. rewrite Hout by tauto. rewrite dict_get_set.
      destruct (k =? key) eqn:E; [|reflexivity].
      apply String.eqb_eq in E. subst. tauto.
Qed.

Lemma dict_comprehension_from_total f (keys : list string) d :
  forallb (fun k => is_ok (f k)) keys = true ->
  exists r, dict_comprehension_from d f keys = Ok r.
Proof.
  revert d; induction keys as [|key keys IH]; simpl; intros d H.
  - now exists d.
  - apply andb_true_iff in H as [Hk Hks].
    destruct (f key) as [v|e]; [|discriminate]. simpl. now apply IH.
Qed.
End DictFacts.

(** ** The batch stacker *)

Section CollateFacts.
Context {scalar : Type}.
Implicit Types (first item : pydict (tensor scalar)).

Lemma has_fields_spec first item (key : string) :
  has_fields first item = true ->
  In key (dict_keys first) -> In key (dict_keys item).
Proof.
  unfold has_fields. rewrite forallb_forall. intros H Hk.
  apply existsb_eqb_In. now apply H.
Qed.

Lemma same_fields_has first (rest : list (pydict (tensor scalar))) :
  forallb (same_fields first) rest = true ->
  forallb (has_fields first) rest = true.
Proof.
  rewrite !forallb_forall. intros H item Hi.
  apply H in Hi. unfold same_fields in Hi. now apply andb_true_iff in Hi.
Qed.

Lemma same_shapes_spec first item (key : string) (t0 t : tensor scalar) :
  same_shapes first item = true ->
  dict_get first key = Ok t0 ->
  dict_get item key = Ok t ->
  shape t = shape t0.
Proof.
  unfold same_shapes. rewrite forallb_forall. intros H H0 H1.
  assert (Hk : In key (dict_keys first)) by (apply dict_get_keys; eauto).
  specialize (H key Hk). rewrite H0, H1 in H. now apply same_shape_true.
Qed.

(** One field over the samples after the first, when each has it with the
    shape it has in the first. *)
Lemma field_of_rest first (rest : list (pydict (tensor scalar))) (key : string)
    (t0 : tensor scalar) :
  dict_get first key = Ok t0 ->
  forallb (has_fields first) rest = true ->
  forallb (same_shapes first) rest = true ->
  exists ts,
    comprehension (fun item => dict_get item key) rest = Ok ts /\
    Forall (fun t => shape t = shape t0) ts.
Proof.
  intros Ht0 Hf Hs.
  induction rest as [|item rest IH]; simpl in *.
  - exists []. split; [reflexivity | constructor].
  - apply andb_true_iff in Hf as [Hf1 Hf2].
    apply andb_true_iff in Hs as [Hs1 Hs2].
    destruct (IH Hf2 Hs2) as (ts & -> & Hall).
    assert (Hi : exists t, dict_get item key = Ok t).
    { apply dict_get_keys, (has_fields_spec _ _ _ Hf1), dict_get_keys. eauto. }
    destruct Hi as [t Ht]. rewrite Ht. simpl.
    exists (t :: ts). split; [reflexivity|].
    constructor; [|assumption].
    eapply same_shapes_spec; eassumption.
Qed.

(** The keys of a batch are those of its first sample. *)
Lemma collate_fn_keys first (rest : list (pydict (tensor scalar)))
    (r : pydict (tensor scalar)) :
  collate_fn (first :: rest) = Ok r ->
  forall key, In key (dict_keys r) <-> In key (dict_keys first).
Proof.
  unfold collate_fn, dict_comprehension. intros H key.
  apply dict_comprehension_from_ok in H as (Hkeys & _).
  rewrite Hkeys. simpl. tauto.
Qed.

(** The stacker returns when every later sample has the fields of the
    first, with the same shapes; each field of the result is the stack of
    that field over the batch. *)
Lemma collate_fn_returns first (rest : list (pydict (tensor scalar))) :
  forallb (has_fields first) rest = true ->
  forallb (same_shapes first) rest = true ->
  exists r,
    collate_fn (first :: rest) = Ok r /\
    forall key t0,
      dict_get first key = Ok t0 ->
      exists ts,
        comprehension (fun item => dict_get item key) rest = Ok ts /\
        dict_get r key = Ok (Stack (t0 :: ts)).
Proof.
  intros Hf Hs.
  assert (Hfield : forall key t0,
             dict_get first key = Ok t0 ->
             exists ts,
               comprehension (fun item => dict_get item key) rest = Ok ts /\
               (items <- comprehension (fun item => dict_get item key) (first :: rest) ;;
                torch_stack items)%res = Ok (Stack (t0 :: ts))).
  { intros key t0 Ht0.
    edestruct field_of_rest as (ts & Hts & Hall);
      [exact Ht0 | exact Hf | exact Hs |].
    exists ts. split; [assumption|].
    cbn [comprehension]. rewrite Ht0. cbn [rbind]. rewrite Hts. cbn [rbind].
    now apply torch_stack_same. }
  unfold collate_fn, dict_comprehension.
  destruct (dict_comprehension_from_total
              (fun key =>
                 (items <- comprehension (fun item => dict_get item key) (first :: rest) ;;
                  torch_stack items)%res)
              (dict_keys first) []) as [r Hr].
  { apply forallb_forall. intros key Hk.
    apply dict_get_keys in Hk as [t0 Ht0].
    destruct (Hfield key t0 Ht0) as (ts & _ & ->). reflexivity. }
  exists r. split; [assumption|].
  intros key t0 Ht0.
  destruct (Hfield key t0 Ht0) as (ts & Hts & Hstack).
  exists ts. split; [assumption|].
  apply dict_comprehension_from_ok in Hr as (_ & Hin & _).
  destruct (Hin key) as (v & Hv & Hget).
  { apply dict_get_keys. eauto. }
  rewrite Hstack in Hv. now injection Hv as <-.
Qed.
End CollateFacts.


(** ** The claims *)

(** C4.  For every constructed adapter, [len(adapter)] is the row count of
    the collection the adapter holds: the frame the constructor loaded from
    the catalog after it had restricted the collection by [sel]. *)
Theorem len_is_row_count {cell : Type} {N : NNJA cell}
    (name : string) (t : time_t) (primary additional : list string)
    (sensor : string) (log log' cs : list call) (a : SensorDataset N) :
  __init__ name t primary additional sensor log = (Ok a, log') ->
  (exists d1 channels d2,
      sensor_channels sensor = Some channels /\
      sel d1 t (primary ++ channels)%list = Ok d2 /\
      load_dataset d2 "pandas" = Ok (dataframe a)) /\
  fst (__len__ {| self := a; calls := cs |}) = Ok (length (rows (dataframe a))).
Proof.
  intros H. apply init_ok_inv in H.
  destruct H as (cat & d0 & d1 & channels & d2 & _ & _ & _ & Hs & Hsel & Hload & _).
  split.
  - exists d1, channels, d2. auto.
  - now rewrite len_run.
Qed.

Lemma len_is_row_count_witness :
  exists a log,
    Synthetic.adapter Synthetic.nnja 0%Z geo_columns "AMSU" = (Ok a, log) /\
    fst (__len__ {| self := a; calls := log |}) = Ok 2.
Proof.
  eexists. eexists. split; [reflexivity|].
  exact (proj2 (len_is_row_count (N := Synthetic.nnja) "amsua" 0%Z geo_columns []
                  "AMSU" [] _ eq_refl)).
Defined.

Lemma unsupported_channels (sensor : string) :
  existsb (String.eqb sensor) supported_sensor_types = false <->
  sensor_channels sensor = None.
Proof.
  rewrite sensor_channels_None, <- existsb_eqb_In.
  destruct (existsb _ _); split; congruence.
Qed.

(** C5, as the code has it.  A construction with a sensor type outside
    AMSU, ATMS, MHS, IASI, CrIS never returns an adapter.  The catalog is
    opened first: when [DataCatalog], the lookup of the collection and
    [load_manifest] return, the constructor raises the [ValueError] for the
    sensor type, having selected and loaded nothing; when one of the three
    raises, its exception is the outcome. *)
Theorem unsupported_sensor_rejected {cell : Type} {N : NNJA cell}
    (name : string) (t : time_t) (primary additional : list string)
    (sensor : string) (log : list call) :
  existsb (String.eqb sensor) supported_sensor_types = false ->
  is_ok (fst (__init__ name t primary additional sensor log)) = false /\
  (forall cat d0 d1,
      DataCatalog true = Ok cat ->
      catalog_getitem cat name = Ok d0 ->
      load_manifest d0 = Ok d1 ->
      __init__ name t primary additional sensor log
      = (Raise (ValueError ("Unsupported sensor type: " ++ sensor)),
         (log ++ [Call_DataCatalog true; Call_getitem name; Call_load_manifest])%list)) /\
  (forall e,
      DataCatalog true = Raise e ->
      fst (__init__ name t primary additional sensor log) = Raise e) /\
  (forall cat e,
      DataCatalog true = Ok cat ->
      catalog_getitem cat name = Raise e ->
      fst (__init__ name t primary additional sensor log) = Raise e) /\
  (forall cat d0 e,
      DataCatalog true = Ok cat ->
      catalog_getitem cat name = Ok d0 ->
      load_manifest d0 = Raise e ->
      fst (__init__ name t primary additional sensor log) = Raise e).
Proof.
  intros Hs. apply unsupported_channels in Hs. split; [|split; [|split; [|split]]].
  - now apply init_unsupported.
  - intros cat d0 d1 H1 H2 H3.
    rewrite (init_run name t primary additional sensor log H1 H2 H3).
    now rewrite Hs.
  - intros e. rewrite init_normal_eq. unfold init_normal, DataCatalog. run_monad.
    destruct nnja_DataCatalog as [new|].
    + intros H1. now rewrite H1.
    + now intros [= <-].
  - intros cat e. rewrite init_normal_eq. unfold init_normal, DataCatalog. run_monad.
    destruct nnja_DataCatalog as [new|]; [|discriminate].
    intros H1 H2. now rewrite H1, H2.
  - intros cat d0 e. rewrite init_normal_eq. unfold init_normal, DataCatalog. run_monad.
    destruct nnja_DataCatalog as [new|]; [|discriminate].
    intros H1 H2 H3. now rewrite H1, H2, H3.
Qed.

Lemma unsupported_sensor_rejected_witness :
  is_ok (fst (Synthetic.adapter Synthetic.nnja 0%Z geo_columns "SSMIS")) = false /\
  Synthetic.adapter Synthetic.nnja 0%Z geo_columns "SSMIS"
  = (Raise (ValueError "Unsupported sensor type: SSMIS"),
     [Call_DataCatalog true; Call_getitem "amsua"; Call_load_manifest]).
Proof.
  destruct (unsupported_sensor_rejected (N := Synthetic.nnja) "amsua" 0%Z
              geo_columns [] "SSMIS" [] eq_refl) as (Hnever & Herror & _).
  split; [exact Hnever|].
  exact (Herror _ _ _ eq_refl eq_refl eq_refl).
Defined.

(** C5, as it is stated, fails: with an unsupported sensor type the
    exception is that of the catalog when the collection is unknown, and a
    [NameError] when the import of nnja had failed. *)
Lemma unsupported_sensor_other_error :
  existsb (String.eqb "SSMIS") supported_sensor_types = false /\
  fst (__init__ (N := Synthetic.nnja) "unknown" 0%Z geo_columns [] "SSMIS" [])
  = Raise (KeyError "unknown") /\
  fst (__init__ (N := Synthetic.not_installed) "amsua" 0%Z geo_columns [] "SSMIS" [])
  = Raise (NameError "DataCatalog").
Proof. repeat split. Qed.

(** C6.  When a requested primary descriptor is absent from the frame the
    constructor has loaded, the construction raises the [ValueError] that
    names the first absent one, so no adapter exists to produce a sample;
    and [__getitem__] does not look at the primary descriptors: with any
    other list in their place it does the same. *)
Theorem missing_primary_column_rejected {cell scalar : Type}
    {V : Values cell scalar} {N : NNJA cell}
    (name : string) (t : time_t) (primary additional : list string)
    (sensor : string) (log : list call)
    cat d0 d1 (channels : list string) d2 (df : DataFrame cell) (col : string) :
  DataCatalog true = Ok cat ->
  catalog_getitem cat name = Ok d0 ->
  load_manifest d0 = Ok d1 ->
  sensor_channels sensor = Some channels ->
  sel d1 t (primary ++ channels)%list = Ok d2 ->
  load_dataset d2 "pandas" = Ok df ->
  In col primary ->
  has_column df col = false ->
  (exists absent,
      find (fun c => negb (has_column df c)) primary = Some absent /\
      __init__ name t primary additional sensor log
      = (Raise (ValueError ("The dataset must include a '" ++ absent ++ "' column.")),
         (log ++ construction_calls name (primary ++ channels))%list)) /\
  (forall (a : SensorDataset N) (others : list string) (cs : list call) (i : Z),
      fst (__getitem__ i {| self := with_primary_descriptors a others; calls := cs |})
      = fst (__getitem__ i {| self := a; calls := cs |})).
Proof.
  intros H1 H2 H3 Hs Hsel Hload Hin Hcol. split.
  - destruct (find (fun c => negb (has_column df c)) primary) as [absent|] eqn:Hfind.
    + exists absent. split; [reflexivity|].
      rewrite (init_run name t primary additional sensor log H1 H2 H3).
      rewrite Hs. cbv zeta. rewrite Hsel, Hload, check_columns_find, Hfind.
      reflexivity.
    + exfalso. apply (find_none _ _ Hfind) in Hin. now rewrite Hcol in Hin.
  - intros a others cs i. now apply getitem_reads.
Qed.

Lemma missing_primary_column_rejected_witness :
  Synthetic.adapter Synthetic.without_lat 0%Z geo_columns "MHS"
  = (Raise (ValueError "The dataset must include a 'LAT' column."),
     construction_calls "amsua"
       ["OBS_TIMESTAMP"; "LAT"; "LON"; "TMBR_00001"; "TMBR_00002";
        "TMBR_00003"; "TMBR_00004"; "TMBR_00005"]).
Proof.
  destruct (missing_primary_column_rejected (V := Synthetic.values)
              (N := Synthetic.without_lat) "amsua" 0%Z geo_columns [] "MHS" []
              "LAT"
              eq_refl eq_refl eq_refl eq_refl eq_refl eq_refl
              (or_intror (or_introl eq_refl)) eq_refl)
    as [(absent & Hfind & Hinit) _].
  vm_compute in Hfind. injection Hfind as <-. exact Hinit.
Defined.

(** C7.  Two accesses at the same index, one after the other, have the same
    outcome: the same sample, or the same exception. *)
Theorem getitem_deterministic {cell scalar : Type}
    {V : Values cell scalar} {N : NNJA cell} (w : World N) (i : Z) :
  let first := __getitem__ i w in
  let second := __getitem__ i (snd first) in
  fst second = fst first.
Proof.
  intros first second. unfold second, first.
  rewrite getitem_frame. reflexivity.
Qed.



(** The synthetic catalog that holds every variable returns exactly the
    selected columns. *)
Lemma synthetic_exact_columns : exact_columns Synthetic.nnja.
Proof.
  intros d t variables d' engine df. simpl.
  intros [= <-] [= <-]. simpl. rewrite app_nil_r.
  apply forallb_filter_id, forallb_forall. reflexivity.
Qed.

Lemma apart_from_channels_spec (sensor : string) (primary channels : list string) :
  apart_from_channels sensor primary = true ->
  sensor_channels sensor = Some channels ->
  forall col, In col primary -> ~ In col channels.
Proof.
  unfold apart_from_channels. intros H Hs. rewrite Hs, forallb_forall in H.
  intros col Hp Hc. apply H in Hp. apply existsb_eqb_In in Hc.
  now rewrite Hc in Hp.
Qed.

(** C1, as the code has it.  With a catalog that returns exactly the
    selected columns, and primary descriptors none of which is a channel
    column of the sensor type, every sample of a constructed adapter has a
    metadata vector of the documented length: 15 for AMSU, 22 for ATMS, 5
    for MHS, 616 for IASI, 431 for CrIS. *)
Theorem metadata_length {cell scalar : Type}
    {V : Values cell scalar} {N : NNJA cell}
    (name : string) (t : time_t) (primary additional : list string)
    (sensor : string) (n : nat) (log log' cs : list call)
    (a : SensorDataset N) (i : Z) (s : pydict (tensor scalar)) :
  exact_columns N ->
  In (sensor, n) documented_counts ->
  apart_from_channels sensor primary = true ->
  __init__ name t primary additional sensor log = (Ok a, log') ->
  fst (__getitem__ i {| self := a; calls := cs |}) = Ok s ->
  exists md, dict_get s "metadata" = Ok md /\ shape md = [n].
Proof.
  intros Hexact Hdoc Hapart Hinit Hget.
  apply documented_channels in Hdoc as (channels & Hch & Hlen & _).
  apply init_ok_inv in Hinit.
  destruct Hinit as (cat & d0 & d1 & channels' & d2 & _ & _ & _ & Hch' & Hsel
                     & Hload & _ & _ & Hmeta & _).
  rewrite Hch in Hch'. injection Hch' as <-.
  rewrite (Hexact _ _ _ _ _ _ Hsel Hload) in Hmeta.
  rewrite non_primary_app_disjoint in Hmeta
    by (intros col Hp; eapply apart_from_channels_spec; eassumption).
  apply getitem_ok_inv in Hget.
  destruct Hget as (row & stamp & tm & clat & clon & cells & md & lat & lon
                    & _ & _ & _ & _ & _ & Hcells & Hmd & _ & _ & ->).
  simpl in Hcells. rewrite Hmeta in Hcells.
  apply comprehension_length in Hcells, Hmd.
  exists (from_numpy md). split; [reflexivity|].
  rewrite shape_from_numpy. congruence.
Qed.

Lemma metadata_length_witness :
  exists s md,
    Synthetic.sample_at Synthetic.nnja 0%Z geo_columns "ATMS" (-1)%Z = Ok s /\
    dict_get s "metadata" = Ok md /\ shape md = [22].
Proof.
  eexists. 
  destruct (metadata_length (V := Synthetic.values) (N := Synthetic.nnja)
              (sensor := "ATMS") (n := 22) "amsua" 0%Z geo_columns [] [] []
              (-1)%Z synthetic_exact_columns
              (or_intror (or_introl eq_refl)) eq_refl eq_refl eq_refl)
    as (md & Hmd & Hshape).
  exists md. split; [reflexivity|]. split; [exact Hmd | exact Hshape].
Defined.

(** C1, as it is stated, fails: a primary descriptor that is also a channel
    column is kept out of the metadata, here 14 values for AMSU. *)
Lemma metadata_shorter_than_documented :
  apart_from_channels "AMSU" (geo_columns ++ ["TMBR_00001"]) = false /\
  is_ok (fst (Synthetic.adapter Synthetic.nnja 0%Z
                (geo_columns ++ ["TMBR_00001"]) "AMSU")) = true /\
  (s <- Synthetic.sample_at Synthetic.nnja 0%Z
          (geo_columns ++ ["TMBR_00001"]) "AMSU" 0%Z ;;
   md <- dict_get s "metadata" ;;
   Ok (shape md))%res = Ok [14].
Proof. repeat split. Qed.

(** Two comprehensions in a row, the second over the results of the first,
    when each element passes both steps. *)
Lemma comprehension_chain {A B C : Type} (f : A -> result B) (g : B -> result C)
    (xs : list A) :
  forallb (fun x => is_ok (y <- f x ;; g y)%res) xs = true ->
  exists ys zs,
    comprehension f xs = Ok ys /\
    comprehension g ys = Ok zs /\
    Forall2 (fun x z => exists y, f x = Ok y /\ g y = Ok z) xs zs.
Proof.
  induction xs as [|x xs IH]; simpl; intros H.
  - exists [], []. repeat split; constructor.
  - apply andb_true_iff in H as [Hx Hxs].
    destruct (IH Hxs) as (ys & zs & Hys & Hzs & Hall).
    destruct (f x) as [y|] eqn:Hfx; simpl in Hx; [|discriminate].
    destruct (g y) as [z|] eqn:Hgy; [|discriminate].
    exists (y :: ys), (z :: zs). rewrite Hys. simpl. rewrite Hgy, Hzs. simpl.
    repeat split. constructor; [|assumption]. now exists y.
Qed.

(** C2, as the code has it.  For a constructed adapter whose frame has
    distinct column labels and a valid row index, when the row holds a
    timestamp at OBS_TIMESTAMP, values that torch converts at LAT and LON,
    and values that numpy converts at the columns that are no primary
    descriptor, the access returns a record with
    exactly the fields timestamp, latitude, longitude and metadata: the
    first three read from these three columns of the row, the last the
    row's values at the columns that are no primary descriptor, in column
    order. *)
Theorem getitem_sample {cell scalar : Type}
    {V : Values cell scalar} {N : NNJA cell}
    (name : string) (t : time_t) (primary additional : list string)
    (sensor : string) (log log' cs : list call) (a : SensorDataset N) (i : Z)
    (row : Series cell) (stamp clat clon : cell) (tm : pyfloat) (lat lon : scalar) :
  __init__ name t primary additional sensor log = (Ok a, log') ->
  distinct (columns (dataframe a)) = true ->
  iloc (dataframe a) i = Ok row ->
  series_get row "OBS_TIMESTAMP" = Ok stamp ->
  timestamp stamp = Ok tm ->
  series_get row "LAT" = Ok clat ->
  tensor_of_cell clat = Ok lat ->
  series_get row "LON" = Ok clon ->
  tensor_of_cell clon = Ok lon ->
  forallb (fun col => is_ok (c <- series_get row col ;; float32_of_cell c)%res)
          (non_primary primary (columns (dataframe a))) = true ->
  exists md,
    fst (__getitem__ i {| self := a; calls := cs |})
    = Ok [("timestamp", Scalar (tensor_of_float tm));
          ("latitude", Scalar lat);
          ("longitude", Scalar lon);
          ("metadata", from_numpy md)] /\
    Forall2 (fun col x =>
               exists c, series_get row col = Ok c /\ float32_of_cell c = Ok x)
            (non_primary primary (columns (dataframe a))) md.
Proof.
  intros Hinit _ Hrow Hstamp Htm Hlat Hlat' Hlon Hlon' Hmeta.
  apply init_ok_inv in Hinit.
  destruct Hinit as (cat & d0 & d1 & channels & d2 & _ & _ & _ & _ & _ & _ & _
                     & _ & Hcols & _).
  apply comprehension_chain in Hmeta as (cells & md & Hcells & Hmd & Hall).
  exists md. split; [|assumption].
  eapply getitem_run; simpl; try eassumption.
  now rewrite Hcols.
Qed.

Lemma getitem_sample_witness :
  exists md,
    Synthetic.sample_at Synthetic.nnja 0%Z geo_columns "MHS" 1%Z
    = Ok [("timestamp", Scalar 1700000001%Z);
          ("latitude", Scalar 4%Z);
          ("longitude", Scalar 4%Z);
          ("metadata", from_numpy md)] /\
    length md = 5.
Proof.
  destruct (getitem_sample (V := Synthetic.values) (N := Synthetic.nnja)
              "amsua" 0%Z geo_columns [] "MHS" [] [] 1%Z
              eq_refl eq_refl eq_refl eq_refl eq_refl eq_refl eq_refl eq_refl
              eq_refl eq_refl)
    as (md & Hget & Hall).
  exists md. split; [exact Hget|].
  apply Forall2_length in Hall. symmetry. exact Hall.
Defined.

(** C2, as it is stated, fails: an adapter constructed without primary
    descriptors holds a frame without OBS_TIMESTAMP, and the access at the
    valid index 0 raises [KeyError]. *)
Lemma getitem_without_timestamp_column :
  (r <- fst (Synthetic.adapter Synthetic.nnja 0%Z [] "AMSU") ;;
   Ok (df_len (dataframe r)))%res = Ok 2 /\
  Synthetic.sample_at Synthetic.nnja 0%Z [] "AMSU" 0%Z
  = Raise (KeyError "OBS_TIMESTAMP").
Proof. split; reflexivity. Qed.

(** C3, as the code has it.  For a non-empty list of N samples that all
    have the same field names and, field by field, tensors of the same
    shape, the stacker returns one record with these field names; each
    field is a tensor whose leading dimension is N and whose i-th slice is
    that field of the i-th sample. *)
Theorem collate_stacks_in_order {scalar : Type}
    (first : pydict (tensor scalar)) (rest : list (pydict (tensor scalar))) :
  forallb (same_fields first) rest = true ->
  forallb (same_shapes first) rest = true ->
  exists r,
    collate_fn (first :: rest) = Ok r /\
    (forall key, In key (dict_keys r) <-> In key (dict_keys first)) /\
    forall key t0,
      dict_get first key = Ok t0 ->
      exists stacked,
        dict_get r key = Ok stacked /\
        shape stacked = length (first :: rest) :: shape t0 /\
        forall i item,
          nth_error (first :: rest) i = Some item ->
          exists t, dict_get item key = Ok t /\ slice stacked i = Some t.
Proof.
  intros Hf Hs. apply same_fields_has in Hf.
  destruct (collate_fn_returns first rest Hf Hs) as (r & Hr & Hfields).
  exists r. split; [assumption|]. split; [now apply collate_fn_keys with rest|].
  intros key t0 Ht0.
  destruct (Hfields key t0 Ht0) as (ts & Hts & Hget).
  exists (Stack (t0 :: ts)). split; [assumption|]. split.
  - simpl. apply comprehension_length in Hts. now rewrite Hts.
  - intros i item Hi. destruct i as [|i]; simpl in *.
    + injection Hi as <-. now exists t0.
    + destruct (comprehension_nth _ _ _ Hts Hi) as (t & Hnth & Ht).
      now exists t.
Qed.

Lemma collate_stacks_in_order_witness :
  exists r,
    collate_fn [[("latitude", Scalar 4%Z); ("metadata", from_numpy [7; 8]%Z)];
                [("latitude", Scalar 5%Z); ("metadata", from_numpy [9; 6]%Z)]]
    = Ok r /\
    dict_get r "metadata"
    = Ok (Stack [from_numpy [7; 8]%Z; from_numpy [9; 6]%Z]).
Proof.
  destruct (collate_stacks_in_order
              [("latitude", Scalar 4%Z); ("metadata", from_numpy [7; 8]%Z)]
              [[("latitude", Scalar 5%Z); ("metadata", from_numpy [9; 6]%Z)]]
              eq_refl eq_refl)
    as (r & Hr & Hkeys & Hfields).
  exists r. split; [exact Hr|].
  injection Hr as <-. reflexivity.
Defined.

(** C3, as it is stated, fails: the samples of an AMSU and of an MHS adapter
    have the same field names and metadata of 15 and of 5 values, which
    [torch.stack] refuses. *)
Lemma collate_ragged_metadata :
  (s1 <- Synthetic.sample_at Synthetic.nnja 0%Z geo_columns "AMSU" 0%Z ;;
   s2 <- Synthetic.sample_at Synthetic.nnja 0%Z geo_columns "MHS" 0%Z ;;
   Ok (same_fields s1 s2, collate_fn [s1; s2]))%res
  = Ok (true, Raise RuntimeError).
Proof. reflexivity. Qed.

(** C10.  The stacker raises [IndexError] on the empty list.  On a
    non-empty list the fields of the record it returns are exactly those of
    the first sample, whatever fields the later samples have: it returns as
    soon as each later sample has the fields of the first, with the same
    shapes, and what else a later sample holds is not read. *)
Theorem collate_fields_of_first {scalar : Type} :
  collate_fn (@nil (pydict (tensor scalar))) = Raise IndexError /\
  (forall first rest r,
      collate_fn (scalar := scalar) (first :: rest) = Ok r ->
      forall key, In key (dict_keys r) <-> In key (dict_keys first)) /\
  (forall first rest,
      forallb (has_fields first) rest = true ->
      forallb (same_shapes first) rest = true ->
      exists r, collate_fn (scalar := scalar) (first :: rest) = Ok r).
Proof.
  split; [reflexivity|]. split.
  - intros first rest r. apply collate_fn_keys.
  - intros first rest Hf Hs.
    destruct (collate_fn_returns first rest Hf Hs) as (r & Hr & _).
    now exists r.
Qed.

Lemma collate_fields_of_first_witness :
  exists r,
    collate_fn [[("latitude", Scalar 4%Z)];
                [("longitude", Scalar 9%Z); ("latitude", Scalar 5%Z)]]
    = Ok r /\
    forall key, In key (dict_keys r) <-> In key ["latitude"].
Proof.
  destruct (proj2 (proj2 (collate_fields_of_first (scalar := Z)))
              [("latitude", Scalar 4%Z)]
              [[("longitude", Scalar 9%Z); ("latitude", Scalar 5%Z)]]
              eq_refl eq_refl) as [r Hr].
  exists r. split; [exact Hr|].
  exact (proj1 (proj2 (collate_fields_of_first (scalar := Z))) _ _ _ Hr).
Defined.

(** No channel column of a sensor type is one of the three columns the
    access reads by name. *)
Lemma channels_not_geo (sensor : string) (channels : list string) :
  sensor_channels sensor = Some channels ->
  forallb (fun col => negb (existsb (String.eqb col) channels)) geo_columns = true.
Proof.
  unfold sensor_channels.
  destruct (sensor =? "AMSU"); [intros [= <-]; vm_compute; reflexivity|].
  destruct (sensor =? "ATMS"); [intros [= <-]; vm_compute; reflexivity|].
  destruct (sensor =? "MHS"); [intros [= <-]; vm_compute; reflexivity|].
  destruct (sensor =? "IASI"); [intros [= <-]; vm_compute; reflexivity|].
  destruct (sensor =? "CrIS"); [intros [= <-]; vm_compute; reflexivity|].
  discriminate.
Qed.

(** A label that is no column of the frame is not found in a row. *)
Lemma series_get_missing {cell : Type} (df : DataFrame cell) (i : Z)
    (row : Series cell) (label : string) :
  iloc df i = Ok row ->
  has_column df label = false ->
  series_get row label = Raise (KeyError label).
Proof.
  intros Hrow Hcol. apply iloc_labels in Hrow as [Hl _].
  unfold series_get.
  replace (position label (labels row)) with (@None nat); [reflexivity|].
  symmetry. apply position_None. rewrite Hl. intros Hin.
  apply existsb_eqb_In in Hin. unfold has_column in Hcol. congruence.
Qed.

(** C9, as the code has it.  The access reads the row at the columns named
    OBS_TIMESTAMP, LAT and LON, whatever the primary descriptors of the
    instance are: it returns only on a frame with these three columns, and
    on a frame with distinct labels a sample it returns holds what it read
    there; where one of the three is absent it raises the [KeyError] that
    names it, in this order; and it returns when these reads and the
    conversions do.  The constructor does not ask for the three columns:
    with a catalog that returns exactly the selected columns, a list of
    primary descriptors that lacks one of them passes construction when the
    calls to the catalog return, and then every access raises. *)
Theorem geo_columns_read_by_name {cell scalar : Type}
    {V : Values cell scalar} {N : NNJA cell} :
  (forall (w : World N) (i : Z) (s : pydict (tensor scalar)),
      fst (__getitem__ i w) = Ok s ->
      forallb (has_column (dataframe (self w))) geo_columns = true /\
      (distinct (columns (dataframe (self w))) = true ->
       exists row stamp tm clat clon lat lon,
         iloc (dataframe (self w)) i = Ok row /\
         series_get row "OBS_TIMESTAMP" = Ok stamp /\
         timestamp stamp = Ok tm /\
         series_get row "LAT" = Ok clat /\
         tensor_of_cell clat = Ok lat /\
         series_get row "LON" = Ok clon /\
         tensor_of_cell clon = Ok lon /\
         dict_get s "timestamp" = Ok (Scalar (tensor_of_float tm)) /\
         dict_get s "latitude" = Ok (Scalar lat) /\
         dict_get s "longitude" = Ok (Scalar lon))) /\
  (forall (w : World N) (i : Z) (row : Series cell),
      iloc (dataframe (self w)) i = Ok row ->
      (has_column (dataframe (self w)) "OBS_TIMESTAMP" = false ->
       fst (__getitem__ i w) = Raise (KeyError "OBS_TIMESTAMP")) /\
      (forall stamp tm,
          distinct (columns (dataframe (self w))) = true ->
          series_get row "OBS_TIMESTAMP" = Ok stamp ->
          timestamp stamp = Ok tm ->
          has_column (dataframe (self w)) "LAT" = false ->
          fst (__getitem__ i w) = Raise (KeyError "LAT")) /\
      (forall stamp tm clat,
          distinct (columns (dataframe (self w))) = true ->
          series_get row "OBS_TIMESTAMP" = Ok stamp ->
          timestamp stamp = Ok tm ->
          series_get row "LAT" = Ok clat ->
          has_column (dataframe (self w)) "LON" = false ->
          fst (__getitem__ i w) = Raise (KeyError "LON")) /\
      (forall stamp tm clat clon cells md lat lon,
          distinct (columns (dataframe (self w))) = true ->
          series_get row "OBS_TIMESTAMP" = Ok stamp ->
          timestamp stamp = Ok tm ->
          series_get row "LAT" = Ok clat ->
          series_get row "LON" = Ok clon ->
          comprehension (series_get row) (metadata_columns (self w)) = Ok cells ->
          comprehension float32_of_cell cells = Ok md ->
          tensor_of_cell clat = Ok lat ->
          tensor_of_cell clon = Ok lon ->
          fst (__getitem__ i w)
          = Ok (sample_record (tensor_of_float tm) lat lon md))) /\
  (exact_columns N ->
   forall (name : string) (t : time_t) (primary additional : list string)
          (sensor : string) (log : list call) cat d0 d1 channels d2 df,
     DataCatalog true = Ok cat ->
     catalog_getitem cat name = Ok d0 ->
     load_manifest d0 = Ok d1 ->
     sensor_channels sensor = Some channels ->
     sel d1 t (primary ++ channels)%list = Ok d2 ->
     load_dataset d2 "pandas" = Ok df ->
     forallb (fun col => existsb (String.eqb col) primary) geo_columns = false ->
     exists a log',
       __init__ name t primary additional sensor log = (Ok a, log') /\
       forall (cs : list call) (i : Z),
         is_ok (fst (__getitem__ i {| self := a; calls := cs |})) = false).
Proof.
  split; [|split].
  - intros w i s Hget. split; [now apply getitem_needs_geo with i s|].
    intros _. apply getitem_ok_inv in Hget.
    destruct Hget as (row & stamp & tm & clat & clon & cells & md & lat & lon
                      & H1 & H2 & H3 & H4 & H5 & _ & _ & H8 & H9 & ->).
    exists row, stamp, tm, clat, clon, lat, lon.
    repeat (split; [first [assumption | reflexivity]|]). reflexivity.
  - intros w i row Hrow. split; [|split; [|split]].
    + intros Hcol. unfold __getitem__. run_monad. rewrite Hrow. simpl.
      now rewrite (series_get_missing _ _ _ Hrow Hcol).
    + intros stamp tm _ Hstamp Htm Hcol.
      unfold __getitem__. run_monad. rewrite Hrow. simpl.
      rewrite Hstamp. simpl. rewrite Htm. simpl.
      now rewrite (series_get_missing _ _ _ Hrow Hcol).
    + intros stamp tm clat _ Hstamp Htm Hlat Hcol.
      unfold __getitem__. run_monad. rewrite Hrow. simpl.
      rewrite Hstamp. simpl. rewrite Htm. simpl. rewrite Hlat. simpl.
      now rewrite (series_get_missing _ _ _ Hrow Hcol).
    + intros stamp tm clat clon cells md lat lon _ H2 H3 H4 H5 H6 H7 H8 H9.
      apply (@getitem_run _ _ V N i w row stamp tm clat clon cells md lat lon);
        assumption.
  - intros Hexact name t primary additional sensor log cat d0 d1 channels d2 df
           H1 H2 H3 Hs Hsel Hload Hgeo.
    pose proof (Hexact _ _ _ _ _ _ Hsel Hload) as Hcols.
    assert (Hcheck : check_columns df primary = Ok tt).
    { apply check_columns_ok, forallb_forall. intros col Hin.
      unfold has_column. rewrite Hcols. apply existsb_eqb_In, in_or_app. now left. }
    eexists. eexists. split.
    + rewrite (init_run name t primary additional sensor log H1 H2 H3).
      rewrite Hs. cbv zeta. rewrite Hsel, Hload, Hcheck. reflexivity.
    + intros cs i.
      destruct (fst (__getitem__ i _)) as [s|e] eqn:Hget; [|reflexivity].
      exfalso. apply getitem_needs_geo in Hget. cbn [self dataframe] in Hget.
      pose proof (channels_not_geo _ Hs) as Hch.
      rewrite forallb_forall in Hget, Hch.
      assert (Hall : forallb (fun col => existsb (String.eqb col) primary)
                             geo_columns = true).
      { apply forallb_forall. intros col Hin.
        specialize (Hget col Hin). specialize (Hch col Hin).
        unfold has_column in Hget. rewrite Hcols in Hget.
        apply existsb_eqb_In, in_app_or in Hget.
        apply existsb_eqb_In. destruct Hget as [Hp|Hc]; [assumption|].
        apply existsb_eqb_In in Hc. now rewrite Hc in Hch. }
      congruence.
Qed.

Lemma geo_columns_read_by_name_witness :
  exists a log,
    Synthetic.adapter Synthetic.nnja 0%Z ["OBS_TIMESTAMP"; "LON"] "MHS" = (Ok a, log) /\
    (forall (cs : list call) (i : Z),
        is_ok (fst (__getitem__ (V := Synthetic.values) i
                      {| self := a; calls := cs |})) = false) /\
    fst (__getitem__ (V := Synthetic.values) 0%Z {| self := a; calls := log |})
    = Raise (KeyError "LAT").
Proof.
  eexists. eexists. split; [reflexivity|]. split.
  - destruct (proj2 (proj2 (geo_columns_read_by_name (V := Synthetic.values)
                              (N := Synthetic.nnja)))
                synthetic_exact_columns "amsua" 0%Z ["OBS_TIMESTAMP"; "LON"] []
                "MHS" [] _ _ _ _ _ _
                eq_refl eq_refl eq_refl eq_refl eq_refl eq_refl eq_refl)
      as (a & log & Hinit & Hfail).
    injection Hinit as <- _. exact Hfail.
  - match goal with
    | |- context [{| self := ?a; calls := ?log |}] =>
        destruct (proj1 (proj2 (geo_columns_read_by_name (V := Synthetic.values)
                                  (N := Synthetic.nnja)))
                    {| self := a; calls := log |} 0%Z _ eq_refl)
          as (_ & Hlat & _)
    end.
    exact (Hlat _ _ eq_refl eq_refl eq_refl eq_refl).
Defined.

(** C9, as it is stated, fails: with a catalog whose frames always carry
    LAT and LON, the primary descriptors [OBS_TIMESTAMP] alone pass
    construction and the access returns. *)
Lemma access_returns_without_position_descriptors :
  forallb (fun col => existsb (String.eqb col) ["OBS_TIMESTAMP"]) geo_columns
  = false /\
  is_ok (fst (Synthetic.adapter Synthetic.with_position 0%Z
                ["OBS_TIMESTAMP"] "MHS")) = true /\
  is_ok (Synthetic.sample_at Synthetic.with_position 0%Z
           ["OBS_TIMESTAMP"] "MHS" 0%Z) = true.
Proof. repeat split. Qed.


(** ** Further properties of the constructor *)

(** X1.  The additional variables are stored and nothing more: two
    constructions that differ in them only make the same calls to the
    catalog and end alike, with the same exception or with instances that
    hold the same dataset, frame and metadata columns. *)
Theorem additional_variables_unused {cell : Type} {N : NNJA cell}
    (name : string) (t : time_t) (primary additional additional' : list string)
    (sensor : string) (log : list call) :
  snd (__init__ name t primary additional sensor log)
  = snd (__init__ name t primary additional' sensor log) /\
  match fst (__init__ name t primary additional sensor log),
        fst (__init__ name t primary additional' sensor log) with
  | Ok a, Ok a' =>
      dataset a' = dataset a /\
      dataframe a' = dataframe a /\
      metadata_columns a' = metadata_columns a /\
      additional_variables a = additional /\
      additional_variables a' = additional'
  | Raise e, Raise e' => e = e'
  | _, _ => False
  end.
Proof.
  rewrite !init_normal_eq. unfold init_normal. run_monad.
  destruct nnja_DataCatalog as [new|]; [|now split].
  destruct (new true) as [cat|]; [|now split].
  destruct (catalog_getitem cat name) as [d0|]; [|now split].
  destruct (load_manifest d0) as [d1|]; [|now split].
  destruct (sensor_channels sensor) as [channels|]; simpl; [|now split].
  destruct (sel d1 t (primary ++ channels)%list) as [d2|]; [|now split].
  destruct (load_dataset d2 "pandas") as [df|]; [|now split].
  destruct (check_columns df primary) as [[]|]; simpl; [|now split].
  repeat split.
Qed.

(** X2.  The constructor returns exactly when the catalog opens, holds the
    collection, loads its manifest, the sensor type is one of the five,
    the selection and the materialization return, and every primary
    descriptor is a column of the frame. *)
Theorem construction_returns_iff {cell : Type} {N : NNJA cell}
    (name : string) (t : time_t) (primary additional : list string)
    (sensor : string) (log : list call) :
  is_ok (fst (__init__ name t primary additional sensor log)) = true <->
  exists cat d0 d1 channels d2 df,
    DataCatalog true = Ok cat /\
    catalog_getitem cat name = Ok d0 /\
    load_manifest d0 = Ok d1 /\
    sensor_channels sensor = Some channels /\
    sel d1 t (primary ++ channels)%list = Ok d2 /\
    load_dataset d2 "pandas" = Ok df /\
    forallb (has_column df) primary = true.
Proof.
  split.
  - destruct (__init__ name t primary additional sensor log) as [[a|e] log'] eqn:H;
      [|discriminate].
    intros _. apply init_ok_inv in H.
    destruct H as (cat & d0 & d1 & channels & d2 & H1 & H2 & H3 & H4 & H5 & H6
                   & H7 & _).
    exists cat, d0, d1, channels, d2, (dataframe a).
    repeat (split; [assumption|]). now apply check_columns_ok.
  - intros (cat & d0 & d1 & channels & d2 & df & H1 & H2 & H3 & H4 & H5 & H6 & H7).
    rewrite (init_run name t primary additional sensor log H1 H2 H3).
    rewrite H4. cbv zeta. rewrite H5, H6.
    apply check_columns_ok in H7. now rewrite H7.
Qed.

(** X3.  In a constructed adapter every primary descriptor is a column of
    the frame, the metadata columns are the columns of the frame that are
    no primary descriptor, and with the columns that are primary
    descriptors they account for every column. *)
Theorem constructed_columns {cell : Type} {N : NNJA cell}
    (name : string) (t : time_t) (primary additional : list string)
    (sensor : string) (log log' : list call) (a : SensorDataset N) :
  __init__ name t primary additional sensor log = (Ok a, log') ->
  primary_descriptors a = primary /\
  (forall col, In col primary -> In col (columns (dataframe a))) /\
  (forall col, In col (metadata_columns a) <->
               In col (columns (dataframe a)) /\ ~ In col primary) /\
  length (metadata_columns a)
  + length (filter (fun col => existsb (String.eqb col) primary)
                   (columns (dataframe a)))
  = length (columns (dataframe a)).
Proof.
  intros H. apply init_ok_inv in H.
  destruct H as (cat & d0 & d1 & channels & d2 & _ & _ & _ & _ & _ & _
                 & Hcheck & Hprimary & Hmeta & _).
  split; [assumption|]. split; [|split].
  - apply check_columns_ok in Hcheck. rewrite forallb_forall in Hcheck.
    intros col Hin. apply existsb_eqb_In. now apply Hcheck.
  - intros col. rewrite Hmeta. apply non_primary_spec.
  - rewrite Hmeta. unfold non_primary.
    generalize (columns (dataframe a)) as cols. clear. intros cols.
    induction cols as [|c cols IH]; simpl; [reflexivity|].
    destruct (existsb (String.eqb c) primary); simpl; lia.
Qed.

Lemma constructed_columns_witness :
  exists a log,
    Synthetic.adapter Synthetic.nnja 0%Z ["LON"; "LAT"] "MHS" = (Ok a, log) /\
    length (metadata_columns a) + 2 = 7.
Proof.
  eexists. eexists. split; [reflexivity|].
  exact (proj2 (proj2 (proj2 (constructed_columns (N := Synthetic.nnja) "amsua"
                                 0%Z ["LON"; "LAT"] [] "MHS" [] eq_refl)))).
Defined.

(** X4.  Whatever its outcome, the constructor has added to the log a
    beginning of its five calls: none exactly when the name [DataCatalog]
    is unbound after the failed import, all five when it returns. *)
Theorem construction_calls_prefix {cell : Type} {N : NNJA cell}
    (name : string) (t : time_t) (primary additional : list string)
    (sensor : string) (log : list call) :
  exists variables k,
    k <= 5 /\
    snd (__init__ name t primary additional sensor log)
    = (log ++ firstn k (construction_calls name variables))%list /\
    (k = 0 <-> @nnja_DataCatalog cell N = None) /\
    (is_ok (fst (__init__ name t primary additional sensor log)) = true -> k = 5).
Proof.
  rewrite init_normal_eq. unfold init_normal, construction_calls. run_monad.
  destruct nnja_DataCatalog as [new|];
    [|exists [], 0; simpl; rewrite app_nil_r; repeat split; (lia || discriminate)].
  destruct (new true) as [cat|];
    [|exists [], 1; repeat split; (lia || discriminate)].
  destruct (catalog_getitem cat name) as [d0|];
    [|exists [], 2; rewrite <- !app_assoc; repeat split; (lia || discriminate)].
  destruct (load_manifest d0) as [d1|];
    [|exists [], 3; rewrite <- !app_assoc; repeat split; (lia || discriminate)].
  destruct (sensor_channels sensor) as [channels|]; simpl;
    [|exists [], 3; rewrite <- !app_assoc; repeat split; (lia || discriminate)].
  exists (primary ++ channels)%list.
  destruct (sel d1 t (primary ++ channels)%list) as [d2|];
    [|exists 4; rewrite <- !app_assoc; repeat split; (lia || discriminate)].
  exists 5.
  destruct (load_dataset d2 "pandas") as [df|];
    [|rewrite <- !app_assoc; repeat split; (lia || discriminate)].
  destruct (check_columns df primary) as [[]|];
    rewrite <- !app_assoc; repeat split; (lia || discriminate).
Qed.

(** ** Further properties of the access *)

Section AccessFacts.
Context {cell : Type}.

Lemma iloc_out_of_range (df : DataFrame cell) (i : Z) :
  (i < - Z.of_nat (df_len df) \/ Z.of_nat (df_len df) <= i)%Z ->
  iloc df i = Raise IndexError.
Proof.
  unfold iloc, df_len. intros H.
  destruct (i <? 0)%Z eqn:Hneg.
  - apply Z.ltb_lt in Hneg.
    replace (0 <=? _ + i)%Z with false; [reflexivity|].
    symmetry. apply Z.leb_gt. lia.
  - apply Z.ltb_ge in Hneg.
    replace (i <? _)%Z with false; [now rewrite andb_false_r|].
    symmetry. apply Z.ltb_ge. lia.
Qed.

Lemma iloc_negative (df : DataFrame cell) (i : Z) :
  (- Z.of_nat (df_len df) <= i < 0)%Z ->
  iloc df i = iloc df (i + Z.of_nat (df_len df)).
Proof.
  unfold iloc, df_len. intros [Hlo Hhi].
  replace (i <? 0)%Z with true by (symmetry; apply Z.ltb_lt; lia).
  replace (i + _ <? 0)%Z with false by (symmetry; apply Z.ltb_ge; lia).
  now rewrite Z.add_comm.
Qed.

Lemma iloc_in_range (df : DataFrame cell) (i : Z) :
  (- Z.of_nat (df_len df) <= i < Z.of_nat (df_len df))%Z ->
  exists r, In r (rows df) /\ iloc df i = Ok {| labels := columns df; values := r |}.
Proof.
  intros H. destruct (Z.lt_ge_cases i 0) as [Hneg|Hpos].
  - rewrite iloc_negative by lia.
    destruct (@iloc_valid _ df (i + Z.of_nat (df_len df))) as [row Hrow]; [lia|].
    rewrite Hrow. apply iloc_labels in Hrow as [Hl Hv].
    exists (values row). split; [assumption|]. destruct row; simpl in *. now subst.
  - destruct (@iloc_valid _ df i) as [row Hrow]; [lia|].
    rewrite Hrow. apply iloc_labels in Hrow as [Hl Hv].
    exists (values row). split; [assumption|]. destruct row; simpl in *. now subst.
Qed.

Lemma position_In (label : string) (ls : list string) :
  In label ls -> exists p, position label ls = Some p /\ p < length ls.
Proof.
  induction ls as [|l ls IH]; simpl; [tauto|]. intros Hin.
  destruct (label =? l) eqn:E.
  - exists 0. split; [reflexivity | lia].
  - apply String.eqb_neq in E. destruct Hin as [Hl|Hin]; [congruence|].
    destruct (IH Hin) as (p & -> & Hp). exists (S p). split; [reflexivity | lia].
Qed.

(** A label of the index of a row with one cell per label is found. *)
Lemma series_get_present (row : Series cell) (label : string) :
  length (values row) = length (labels row) ->
  In label (labels row) ->
  exists c, series_get row label = Ok c /\ In c (values row).
Proof.
  intros Hlen Hin. unfold series_get.
  destruct (@position_In label (labels row) Hin) as (p & -> & Hp).
  destruct (nth_error (values row) p) as [c|] eqn:Hc.
  - exists c. split; [reflexivity|]. eapply nth_error_In; eassumption.
  - apply nth_error_None in Hc. lia.
Qed.

Lemma series_get_all (row : Series cell) (cols : list string) :
  length (values row) = length (labels row) ->
  incl cols (labels row) ->
  exists cells,
    comprehension (series_get row) cols = Ok cells /\
    length cells = length cols.
Proof.
  intros Hlen. induction cols as [|col cols IH]; intros Hincl; simpl.
  - now exists [].
  - destruct (@series_get_present row col Hlen) as (c & -> & _).
    { apply Hincl. now left. }
    destruct IH as (cells & -> & Hcells).
    { intros x Hx. apply Hincl. now right. }
    simpl. exists (c :: cells). split; [reflexivity | simpl; lia].
Qed.

Lemma aligned_row (df : DataFrame cell) (r : list cell) :
  aligned df = true -> In r (rows df) -> length r = length (columns df).
Proof.
  unfold aligned. rewrite forallb_forall. intros H Hin.
  now apply Nat.eqb_eq, H.
Qed.
End AccessFacts.

Section AccessOutcome.
Context {cell scalar : Type} {V : Values cell scalar} {N : NNJA cell}.


(** The access once all its lookups are known to succeed. *)
Lemma getitem_after_lookups (i : Z) (w : World N) row stamp clat clon cells :
  iloc (dataframe (self w)) i = Ok row ->
  series_get row "OBS_TIMESTAMP" = Ok stamp ->
  series_get row "LAT" = Ok clat ->
  series_get row "LON" = Ok clon ->
  comprehension (series_get row) (metadata_columns (self w)) = Ok cells ->
  fst (__getitem__ i w)
  = (tm <- timestamp stamp ;;
     md <- comprehension float32_of_cell cells ;;
     lat <- tensor_of_cell clat ;;
     lon <- tensor_of_cell clon ;;
     Ok (sample_record (tensor_of_float tm) lat lon md))%res.
Proof.
  intros H1 H2 H4 H5 H6. unfold __getitem__. run_monad.
  rewrite H1; simpl. rewrite H2; simpl.
  destruct (timestamp stamp) as [tm|]; simpl; [|reflexivity].
  rewrite H4; simpl. rewrite H5; simpl. rewrite H6; simpl.
  destruct (comprehension float32_of_cell cells) as [md|]; simpl; [|reflexivity].
  destruct (tensor_of_cell clat) as [lat|]; simpl; [|reflexivity].
  destruct (tensor_of_cell clon) as [lon|]; simpl; reflexivity.
Qed.
End AccessOutcome.

(** X5.  An index below [-len(adapter)] or from [len(adapter)] on raises
    [IndexError], whatever the frame holds; on an adapter without rows
    every index does. *)
Theorem getitem_out_of_range {cell scalar : Type}
    {V : Values cell scalar} {N : NNJA cell} (w : World N) (i : Z) (n : nat) :
  fst (__len__ w) = Ok n ->
  (i < - Z.of_nat n \/ Z.of_nat n <= i)%Z ->
  fst (__getitem__ i w) = Raise IndexError.
Proof.
  rewrite len_run. intros [= <-] Hi.
  unfold __getitem__. run_monad.
  now rewrite (@iloc_out_of_range _ (dataframe (self w)) i Hi).
Qed.

Lemma getitem_out_of_range_witness :
  exists a log,
    Synthetic.adapter Synthetic.nnja 0%Z geo_columns "MHS" = (Ok a, log) /\
    fst (__getitem__ (V := Synthetic.values) (-3)%Z {| self := a; calls := log |})
    = Raise IndexError.
Proof.
  eexists. eexists. split; [reflexivity|].
  apply (@getitem_out_of_range _ _ Synthetic.values Synthetic.nnja _ (-3)%Z 2).
  - reflexivity.
  - left. reflexivity.
Defined.

(** X6.  A negative index from [-len(adapter)] on counts from the end: the
    access at [i] is the access at [i + len(adapter)]. *)
Theorem getitem_negative_index {cell scalar : Type}
    {V : Values cell scalar} {N : NNJA cell} (w : World N) (i : Z) (n : nat) :
  fst (__len__ w) = Ok n ->
  (- Z.of_nat n <= i < 0)%Z ->
  fst (__getitem__ i w) = fst (__getitem__ (i + Z.of_nat n) w).
Proof.
  rewrite len_run. intros [= <-] Hi.
  unfold __getitem__. run_monad.
  now rewrite (@iloc_negative _ (dataframe (self w)) i Hi).
Qed.

Lemma getitem_negative_index_witness :
  exists a log,
    Synthetic.adapter Synthetic.nnja 0%Z geo_columns "MHS" = (Ok a, log) /\
    fst (__getitem__ (V := Synthetic.values) (-2)%Z {| self := a; calls := log |})
    = fst (__getitem__ (V := Synthetic.values) 0%Z {| self := a; calls := log |}).
Proof.
  eexists. eexists. split; [reflexivity|].
  apply (@getitem_negative_index _ _ Synthetic.values Synthetic.nnja _ (-2)%Z 2).
  - reflexivity.
  - split; [discriminate | reflexivity].
Defined.

(** X7.  In a constructed adapter whose frame has distinct column labels,
    one cell per column in every row, and the columns OBS_TIMESTAMP, LAT
    and LON, no lookup of
    an access at an index from [-len(adapter)] to [len(adapter)] fails: the
    outcome is that of the conversions alone, the timestamp first, then the
    metadata, the latitude and the longitude. *)
Theorem getitem_lookups_succeed {cell scalar : Type}
    {V : Values cell scalar} {N : NNJA cell}
    (name : string) (t : time_t) (primary additional : list string)
    (sensor : string) (log log' cs : list call) (a : SensorDataset N)
    (i : Z) :
  __init__ name t primary additional sensor log = (Ok a, log') ->
  distinct (columns (dataframe a)) = true ->
  aligned (dataframe a) = true ->
  forallb (has_column (dataframe a)) geo_columns = true ->
  (- Z.of_nat (df_len (dataframe a)) <= i < Z.of_nat (df_len (dataframe a)))%Z ->
  exists row stamp clat clon cells,
    iloc (dataframe a) i = Ok row /\
    series_get row "OBS_TIMESTAMP" = Ok stamp /\
    series_get row "LAT" = Ok clat /\
    series_get row "LON" = Ok clon /\
    comprehension (series_get row) (non_primary primary (columns (dataframe a)))
    = Ok cells /\
    fst (__getitem__ i {| self := a; calls := cs |})
    = (tm <- timestamp stamp ;;
       md <- comprehension float32_of_cell cells ;;
       lat <- tensor_of_cell clat ;;
       lon <- tensor_of_cell clon ;;
       Ok (sample_record (tensor_of_float tm) lat lon md))%res.
Proof.
  intros Hinit _ Hal Hgeo Hi.
  apply init_ok_inv in Hinit.
  destruct Hinit as (cat & d0 & d1 & channels & d2 & _ & _ & _ & _ & _ & _ & _
                     & _ & Hmeta & _).
  destruct (@iloc_in_range _ (dataframe a) i Hi) as (r & Hr & Hrow).
  pose proof (aligned_row _ _ Hal Hr) as Hlen.
  set (row := {| labels := columns (dataframe a); values := r |}) in *.
  unfold geo_columns in Hgeo. cbn [forallb] in Hgeo.
  apply andb_true_iff in Hgeo as [Hts Hgeo].
  apply andb_true_iff in Hgeo as [Hlat Hgeo].
  apply andb_true_iff in Hgeo as [Hlon _].
  unfold has_column in Hts, Hlat, Hlon.
  apply existsb_eqb_In in Hts, Hlat, Hlon.
  destruct (@series_get_present _ row "OBS_TIMESTAMP" Hlen Hts) as (stamp & Hstamp & _).
  destruct (@series_get_present _ row "LAT" Hlen Hlat) as (clat & Hclat & _).
  destruct (@series_get_present _ row "LON" Hlen Hlon) as (clon & Hclon & _).
  destruct (@series_get_all _ row (non_primary primary (columns (dataframe a))) Hlen)
    as (cells & Hcells & _).
  { intros col Hcol. apply non_primary_spec in Hcol. apply Hcol. }
  exists row, stamp, clat, clon, cells.
  repeat (split; [assumption|]).
  apply (@getitem_after_lookups _ _ V N i {| self := a; calls := cs |}
           row stamp clat clon cells); simpl; try assumption.
  now rewrite Hmeta.
Qed.

Lemma getitem_lookups_succeed_witness :
  exists a log,
    Synthetic.adapter Synthetic.nnja 0%Z geo_columns "MHS" = (Ok a, log) /\
    is_ok (fst (__getitem__ (V := Synthetic.values) (-1)%Z
                  {| self := a; calls := log |})) = true.
Proof.
  eexists. eexists. split; [reflexivity|].
  assert (Hi : (- Z.of_nat 2 <= -1 < Z.of_nat 2)%Z) by (simpl; lia).
  destruct (getitem_lookups_succeed (V := Synthetic.values) (N := Synthetic.nnja)
              "amsua" 0%Z geo_columns [] "MHS" [] []
              (i := (-1)%Z) eq_refl eq_refl eq_refl eq_refl Hi)
    as (row & stamp & clat & clon & cells & Hrow & Hs & Hlat & Hlon & Hcells & Hget).
  reflexivity.
Defined.

(** ** Further properties of the batch stacker *)

Section ComprehensionMore.
Context {A B : Type} (f : A -> result B).

Lemma comprehension_In (xs : list A) (ys : list B) (x : A) :
  comprehension f xs = Ok ys -> In x xs -> exists y, f x = Ok y /\ In y ys.
Proof.
  intros H Hin. apply In_nth_error in Hin as [i Hi].
  destruct (comprehension_nth f xs i H Hi) as (y & Hy & Hfx).
  exists y. split; [assumption|]. eapply nth_error_In; eassumption.
Qed.

Lemma comprehension_In_result (xs : list A) (ys : list B) (y : B) :
  comprehension f xs = Ok ys -> In y ys -> exists x, In x xs /\ f x = Ok y.
Proof.
  intros H. apply comprehension_Forall2 in H.
  induction H as [|x0 y0 xs0 ys0 Hxy _ IH]; simpl; [tauto|].
  intros [<-|Hin].
  - exists x0. split; [now left | assumption].
  - destruct (IH Hin) as (x & Hx & Hfx). exists x. split; [now right | assumption].
Qed.

(** A comprehension that raises has raised at one of its elements. *)
Lemma comprehension_raise (xs : list A) (e : exn) :
  comprehension f xs = Raise e -> exists x, In x xs /\ f x = Raise e.
Proof.
  induction xs as [|x xs IH]; simpl; [discriminate|].
  destruct (f x) as [y|e0] eqn:Hx; simpl.
  - destruct (comprehension f xs) as [ys|e1]; simpl; [discriminate|].
    intros [= <-]. destruct (IH eq_refl) as (x' & Hin & Hx').
    exists x'. split; [now right | assumption].
  - intros [= <-]. exists x. split; [now left | assumption].
Qed.
End ComprehensionMore.

Section DictMore.
Context {V : Type}.
Implicit Types (d r : pydict V) (f : string -> result V).

Lemma dict_get_raise d (key : string) (e : exn) :
  dict_get d key = Raise e -> e = KeyError key /\ ~ In key (dict_keys d).
Proof.
  intros H. split.
  - induction d as [|[k v] d IH]; simpl in H; [congruence|].
    destruct (key =? k); [discriminate | now apply IH].
  - intros Hin. apply dict_get_keys in Hin as [v Hv]. congruence.
Qed.

Lemma dict_keys_set_new d (k : string) (v : V) :
  ~ In k (dict_keys d) -> dict_keys (dict_set d k v) = (dict_keys d ++ [k])%list.
Proof.
  induction d as [|[k0 w] d IH]; simpl; intros Hk; [reflexivity|].
  destruct (k =? k0) eqn:E.
  - apply String.eqb_eq in E. subst. exfalso. apply Hk. now left.
  - simpl. rewrite IH; [reflexivity|]. intros Hin. apply Hk. now right.
Qed.

(** A comprehension over distinct keys that are new to the dictionary adds
    them in their order. *)
Lemma dict_comprehension_from_order f (keys : list string) d r :
  NoDup keys ->
  (forall k, In k keys -> ~ In k (dict_keys d)) ->
  dict_comprehension_from d f keys = Ok r ->
  dict_keys r = (dict_keys d ++ keys)%list.
Proof.
  revert d; induction keys as [|key keys IH]; simpl; intros d Hnd Hnew H.
  - injection H as <-. now rewrite app_nil_r.
  - destruct (f key) as [v|] eqn:Hf; simpl in H; [|discriminate].
    inversion Hnd as [|? ? Hkey Hnd']; subst.
    rewrite (IH _ Hnd') with (2 := H).
    + rewrite dict_keys_set_new by (apply Hnew; now left).
      now rewrite <- app_assoc.
    + intros k Hk Hin. apply dict_keys_set in Hin as [->|Hin]; [contradiction|].
      apply (Hnew k); [now right | assumption].
Qed.

(** A comprehension that raises has raised at one of its keys. *)
Lemma dict_comprehension_from_raise f (keys : list string) d (e : exn) :
  dict_comprehension_from d f keys = Raise e ->
  exists key, In key keys /\ f key = Raise e.
Proof.
  revert d; induction keys as [|key keys IH]; simpl; intros d; [discriminate|].
  destruct (f key) as [v|e0] eqn:Hf; simpl.
  - intros H. destruct (IH _ H) as (k & Hk & Hfk).
    exists k. split; [now right | assumption].
  - intros [= <-]. exists key. split; [now left | assumption].
Qed.
End DictMore.

Section CollateMore.
Context {scalar : Type}.
Implicit Types (first item : pydict (tensor scalar)).

Lemma torch_stack_raise (t0 : tensor scalar) (ts : list (tensor scalar)) (e : exn) :
  torch_stack (t0 :: ts) = Raise e ->
  e = RuntimeError /\ exists t, In t ts /\ shape t <> shape t0.
Proof.
  simpl. destruct (forallb (same_shape (shape t0)) ts) eqn:H; [discriminate|].
  intros [= <-]. split; [reflexivity|].
  induction ts as [|t ts IH]; simpl in H; [discriminate|].
  destruct (same_shape (shape t0) t) eqn:Ht; simpl in H.
  - destruct (IH H) as (t' & Hin & Hne). exists t'. split; [now right | assumption].
  - exists t. split; [now left|]. intros Heq.
    apply same_shape_true in Heq. congruence.
Qed.

(** What a batch that stacks is made of. *)
Lemma collate_fn_needs first (rest : list (pydict (tensor scalar)))
    (r : pydict (tensor scalar)) :
  collate_fn (first :: rest) = Ok r ->
  forallb (has_fields first) rest = true /\
  forallb (same_shapes first) rest = true.
Proof.
  unfold collate_fn, dict_comprehension. intros H.
  apply dict_comprehension_from_ok in H as (_ & Hin & _).
  assert (Hkey : forall key item,
             In key (dict_keys first) -> In item rest ->
             exists t0 t, dict_get first key = Ok t0 /\
                          dict_get item key = Ok t /\ shape t = shape t0).
  { intros key item Hk Hi. destruct (Hin key Hk) as (v & Hv & _).
    cbn [comprehension] in Hv.
    destruct (dict_get first key) as [t0|] eqn:Ht0; [|discriminate].
    cbn [rbind] in Hv.
    destruct (comprehension (fun it => dict_get it key) rest) as [ts|] eqn:Hts;
      [|discriminate].
    cbn [rbind] in Hv. apply torch_stack_ok in Hv as (_ & t0' & ts' & Heq & Hall).
    injection Heq as <- <-.
    destruct (comprehension_In _ _ item Hts Hi) as (t & Ht & Htin).
    exists t0, t. repeat split; try assumption.
    rewrite Forall_forall in Hall. now apply Hall. }
  split; apply forallb_forall; intros item Hi.
  - unfold has_fields. apply forallb_forall. intros key Hk.
    destruct (Hkey key item Hk Hi) as (t0 & t & _ & Ht & _).
    apply existsb_eqb_In, dict_get_keys. eauto.
  - unfold same_shapes. apply forallb_forall. intros key Hk.
    destruct (Hkey key item Hk Hi) as (t0 & t & -> & -> & Hs).
    now apply same_shape_true.
Qed.
End CollateMore.

(** X8.  A batch stacks exactly when every later sample has the fields of
    the first, each with the shape it has in the first. *)
Theorem collate_returns_iff {scalar : Type}
    (first : pydict (tensor scalar)) (rest : list (pydict (tensor scalar))) :
  is_ok (collate_fn (first :: rest))
  = forallb (has_fields first) rest && forallb (same_shapes first) rest.
Proof.
  destruct (forallb (has_fields first) rest) eqn:Hf;
    [destruct (forallb (same_shapes first) rest) eqn:Hs|]; cbn [andb].
  - destruct (collate_fn_returns first rest Hf Hs) as (r & -> & _). reflexivity.
  - destruct (collate_fn (first :: rest)) as [r|] eqn:H; [|reflexivity].
    apply collate_fn_needs in H as [_ H]. congruence.
  - destruct (collate_fn (first :: rest)) as [r|] eqn:H; [|reflexivity].
    apply collate_fn_needs in H as [H _]. congruence.
Qed.

(** X9.  The fields of the batch come in the order of the fields of the
    first sample. *)
Theorem collate_keeps_field_order {scalar : Type}
    (first : pydict (tensor scalar)) (rest : list (pydict (tensor scalar)))
    (r : pydict (tensor scalar)) :
  NoDup (dict_keys first) ->
  collate_fn (first :: rest) = Ok r ->
  dict_keys r = dict_keys first.
Proof.
  unfold collate_fn, dict_comprehension. intros Hnd H.
  apply dict_comprehension_from_order in H; [exact H | assumption |].
  intros k _ [].
Qed.

Lemma collate_keeps_field_order_witness :
  exists r,
    collate_fn [[("metadata", from_numpy [7; 8]%Z); ("latitude", Scalar 4%Z)];
                [("latitude", Scalar 5%Z); ("metadata", from_numpy [9; 6]%Z)]]
    = Ok r /\
    dict_keys r = ["metadata"; "latitude"].
Proof.
  eexists. split; [reflexivity|].
  apply (@collate_keeps_field_order Z
           [("metadata", from_numpy [7; 8]%Z); ("latitude", Scalar 4%Z)]
           [[("latitude", Scalar 5%Z); ("metadata", from_numpy [9; 6]%Z)]]).
  - repeat constructor; simpl; intuition discriminate.
  - reflexivity.
Defined.

(** X10.  The exceptions of the stacker: [IndexError] for the empty list
    and for nothing else; [KeyError] naming a field of the first sample
    that a later sample lacks; [RuntimeError] when a later sample has a
    field of the first with another shape. *)
Theorem collate_exceptions {scalar : Type}
    (batch : list (pydict (tensor scalar))) (e : exn) :
  collate_fn batch = Raise e ->
  (e = IndexError /\ batch = []) \/
  exists first rest key item,
    batch = first :: rest /\ In key (dict_keys first) /\ In item rest /\
    ((e = KeyError key /\ ~ In key (dict_keys item)) \/
     (e = RuntimeError /\
      exists t0 t, dict_get first key = Ok t0 /\ dict_get item key = Ok t /\
                   shape t <> shape t0)).
Proof.
  destruct batch as [|first rest]; simpl.
  - intros [= <-]. now left.
  - intros H. right. unfold dict_comprehension in H.
    apply dict_comprehension_from_raise in H as (key & Hk & H).
    apply dict_get_keys in Hk as Hk'. destruct Hk' as [t0 Ht0].
    cbn [comprehension] in H. rewrite Ht0 in H. cbn [rbind] in H.
    destruct (comprehension (fun it => dict_get it key) rest) as [ts|e'] eqn:Hts;
      cbn [rbind] in H.
    + apply torch_stack_raise in H as (-> & t & Hin & Hne).
      destruct (comprehension_In_result _ _ t Hts Hin) as (item & Hi & Ht).
      exists first, rest, key, item. repeat split; try assumption.
      right. split; [reflexivity|]. now exists t0, t.
    + injection H as <-.
      apply comprehension_raise in Hts as (item & Hi & Hraise).
      apply dict_get_raise in Hraise as [-> Hout].
      exists first, rest, key, item. repeat split; try assumption.
      left. now split.
Qed.

Lemma collate_exceptions_witness :
  collate_fn [[("latitude", Scalar 4%Z)]; [("longitude", Scalar 9%Z)]]
  = Raise (KeyError "latitude") /\
  ((KeyError "latitude" = IndexError /\
    [[("latitude", Scalar 4%Z)]; [("longitude", Scalar 9%Z)]] = []) \/
   exists first rest key item,
     [[("latitude", Scalar 4%Z)]; [("longitude", Scalar 9%Z)]] = first :: rest /\
     In key (dict_keys first) /\ In item rest /\
     ((KeyError "latitude" = KeyError key /\ ~ In key (dict_keys item)) \/
      (KeyError "latitude" = RuntimeError /\
       exists t0 t, dict_get first key = Ok t0 /\ dict_get item key = Ok t /\
                    shape t <> shape t0))).
Proof.
  split; [reflexivity|].
  exact (collate_exceptions
           [[("latitude", Scalar 4%Z)]; [("longitude", Scalar 9%Z)]] eq_refl).
Defined.

Section OneAdapter.
Context {cell scalar : Type} {V : Values cell scalar} {N : NNJA cell}.


End OneAdapter.


